(** * ASNS intervention records: the record store, search, reports and export

    A shallow embedding of [app.py].  The program keeps one SQLite table,
    [products], behind four helpers ([add_record], [fetch_records],
    [update_record], [delete_record]); a column mapper ([rename_columns]);
    a table paginator ([df_to_pdf_bytes]); a keyword search
    ([show_search_filter]) and the group-and-sum of the reports page
    ([show_reports]).

    The table is a list of rows in rowid order together with the
    [sqlite_sequence] counter that [AUTOINCREMENT] maintains.  A data frame
    is its column labels and its rows of cells.  Text cells are [string]s,
    numeric cells are binary64 floats, and either may be NULL.

    Scope of the model.  The statements are given their SQL meaning on a
    table whose TEXT columns hold strings and whose REAL columns hold
    floats, which is what both forms supply.  A string is the UTF-8
    encoding of a text without NUL; LIKE compares the characters SQLite
    decodes from it.  A float is stored the way a REAL column stores it:
    NaN as NULL, -0.0 as 0.0.  Of the limits of the engine only the 64-bit
    rowid is modelled.  The sums of a report are pandas' compensated sums.
    Drawing and encoding the pages and the chart are left to the plotting
    library: [ax.table] is a parameter of the model, of which the
    properties use that it raises when it is given no row and that a page
    is the table that was asked for; a chart is the series it is asked to
    plot. *)

From Stdlib Require Import ZArith PrimFloat Ascii String.
From Stdlib Require FloatOps FloatAxioms.
From stdpp Require Import gmap strings list fin_maps.

Local Open Scope Z_scope.

(** ** Text and the LIKE operator *)

(** The bytes of a string, which is UTF-8 text. *)
Definition chars (s : string) : list ascii := list_ascii_of_string s.

(** One character of the text: its code point, an unsigned 32-bit number. *)
Definition uchar := N.

Definition is_lead (b : ascii) : bool := (192 <=? N_of_ascii b)%N.

Definition is_continuation (b : ascii) : bool :=
  (N.land (N_of_ascii b) 192 =? 128)%N.

(** The payload bits of the first byte of a character of several bytes,
    for the bytes 0xC0 to 0xFF. *)
Definition sqlite3Utf8Trans1 : list N :=
  [ 0;  1;  2;  3;  4;  5;  6;  7;  8;  9; 10; 11; 12; 13; 14; 15;
   16; 17; 18; 19; 20; 21; 22; 23; 24; 25; 26; 27; 28; 29; 30; 31;
    0;  1;  2;  3;  4;  5;  6;  7;  8;  9; 10; 11; 12; 13; 14; 15;
    0;  1;  2;  3;  4;  5;  6;  7;  0;  1;  2;  3;  0;  1;  0;  0]%N.

Definition lead (b : ascii) : uchar :=
  default 0%N (sqlite3Utf8Trans1 !! N.to_nat (N_of_ascii b - 192)).

Definition continuation (c : uchar) (b : ascii) : uchar :=
  ((N.shiftl c 6 + N.land 63 (N_of_ascii b)) mod 2 ^ 32)%N.

(** What does not decode to a character above ASCII, a surrogate, 0xFFFE
    or 0xFFFF is read as the replacement character 0xFFFD. *)
Definition decoded (c : uchar) : uchar :=
  if ((c <? 128) || (N.land c 0xFFFFF800 =? 0xD800)
      || (N.land c 0xFFFFFFFE =? 0xFFFE))%N
  then 0xFFFD%N else c.

(** The characters as SQLite reads them ([sqlite3Utf8Read], one call per
    character): a byte below 0xC0 is a character by itself, a byte from
    0xC0 on takes with it the continuation bytes (10xxxxxx) that follow.
    [cur] is the character being read. *)
Fixpoint sqlite3Utf8Read (cur : option uchar) (bytes : list ascii) : list uchar :=
  match bytes with
  | [] => match cur with Some c => [decoded c] | None => [] end
  | b :: rest =>
      let next :=
        if is_lead b then sqlite3Utf8Read (Some (lead b)) rest
        else N_of_ascii b :: sqlite3Utf8Read None rest in
      match cur with
      | Some c =>
          if is_continuation b
          then sqlite3Utf8Read (Some (continuation c b)) rest
          else decoded c :: next
      | None => next
      end
  end.

Definition utf8 (s : string) : list uchar := sqlite3Utf8Read None (chars s).

(** SQLite folds the 26 ASCII upper-case letters only. *)
Definition sqlite3Tolower (c : ascii) : ascii :=
  let n := N_of_ascii c in
  if ((65 <=? n) && (n <=? 90))%N then ascii_of_N (n + 32) else c.

Definition fold_case (s : list ascii) : list ascii := sqlite3Tolower <$> s.

(** Only the characters of ASCII have a letter case. *)
Definition fold_char (c : uchar) : uchar :=
  if (c <? 128)%N then N_of_ascii (sqlite3Tolower (ascii_of_N c)) else c.

Definition matchAll : uchar := N_of_ascii "%".
Definition matchOne : uchar := N_of_ascii "_".

(** [x LIKE p] without an ESCAPE clause: ['%'] stands for any run of
    characters, ['_'] for any single character, every other character for
    itself up to ASCII letter case. *)
Fixpoint patternCompare (p s : list uchar) {struct p} : bool :=
  match p with
  | [] => match s with [] => true | _ :: _ => false end
  | c :: p' =>
      if bool_decide (c = matchAll) then
        (fix any_run (s : list uchar) : bool :=
           patternCompare p' s
           || match s with [] => false | _ :: s' => any_run s' end) s
      else
        match s with
        | [] => false
        | d :: s' =>
            (bool_decide (c = matchOne)
             || bool_decide (fold_char c = fold_char d))
            && patternCompare p' s'
        end
  end.

Definition like (x pattern : string) : bool :=
  patternCompare (utf8 pattern) (utf8 x).

(** SQL's three truth values: [None] is NULL. *)
Definition sql_like (x : option string) (pattern : string) : option bool :=
  match x with
  | None => None
  | Some s => Some (like s pattern)
  end.

Definition sql_or (a b : option bool) : option bool :=
  match a, b with
  | Some true, _ | _, Some true => Some true
  | Some false, Some false => Some false
  | _, _ => None
  end.

(** A WHERE clause keeps the rows on which it is true (neither false nor
    NULL). *)
Definition where_holds (c : option bool) : bool :=
  match c with Some true => true | _ => false end.

(** Substrings, as the specification speaks of them: runs of characters. *)
Definition substring_of (kw s : list uchar) : Prop :=
  ∃ a b, s = a ++ kw ++ b.

Definition substring_nocase (kw s : list uchar) : Prop :=
  ∃ a m b, s = a ++ m ++ b ∧ fold_char <$> m = fold_char <$> kw.

Definition text_contains (kw : string) (x : option string) : Prop :=
  ∃ s, x = Some s ∧ substring_of (utf8 kw) (utf8 s).

Definition text_contains_nocase (kw : string) (x : option string) : Prop :=
  ∃ s, x = Some s ∧ substring_nocase (utf8 kw) (utf8 s).

(** A direct test for [substring_of]: try every position. *)
Fixpoint is_substring (kw s : list uchar) : bool :=
  bool_decide (kw `prefix_of` s)
  || match s with [] => false | _ :: s' => is_substring kw s' end.

Definition wildcard (c : ascii) : Prop := c = "%"%char ∨ c = "_"%char.

Definition wildcard_free (kw : string) : Prop :=
  Forall (λ c, ¬ wildcard c) (chars kw).

(** ** The [products] table *)

Definition text := option string.
Definition real := option float.

(** The 21 value columns, in the order of the INSERT and UPDATE statements,
    which is also the order of the CREATE TABLE statement. *)
Record fields := mk_fields {
  sno : text;
  date_of_intervention : text;
  yard_location : text;
  batchno : text;
  hold_no : text;
  material : text;
  lots_id : text;
  sgs_reference_id : text;
  planned_qty : real;
  loaded_qty : real;
  balance_qty : real;
  dry_colour : text;
  wet_colour : text;
  loi : real;
  mgo : real;
  sio2 : real;
  asbestos : text;
  truck_no : text;
  remarks : text;
  vessel_name : text;
  sgs_report_id : text
}.

Record row := mk_row { id : Z; data : fields }.

(** A float bound to a statement and stored in a REAL column: NaN is bound
    as NULL, and a float that equals an integer is kept as that integer,
    which for -0.0 is 0 and reads back as 0.0. *)
Definition bind_double (f : float) : real :=
  if is_nan f then None
  else if is_zero f then Some 0%float
  else Some f.

Definition bind_real (x : real) : real := x ≫= bind_double.

(** The cells a statement stores for the tuple it is given. *)
Definition stored (d : fields) : fields :=
  mk_fields (sno d) (date_of_intervention d) (yard_location d) (batchno d)
    (hold_no d) (material d) (lots_id d) (sgs_reference_id d)
    (bind_real (planned_qty d)) (bind_real (loaded_qty d))
    (bind_real (balance_qty d)) (dry_colour d) (wet_colour d)
    (bind_real (loi d)) (bind_real (mgo d)) (bind_real (sio2 d))
    (asbestos d) (truck_no d) (remarks d) (vessel_name d) (sgs_report_id d).

(** The floats a REAL column gives back as they were bound. *)
Definition exact (x : real) : Prop :=
  ∀ f, x = Some f → is_nan f = false ∧ f ≠ neg_zero.

Definition measures (d : fields) : list real :=
  [planned_qty d; loaded_qty d; balance_qty d; loi d; mgo d; sio2 d].

(** [id INTEGER PRIMARY KEY AUTOINCREMENT]: besides the rows, SQLite keeps
    the largest rowid the table has ever held. *)
Record store := mk_store { rows : list row; sqlite_sequence : Z }.

Definition empty_store : store := mk_store [] 0.

Definition MAX_ROWID : Z := 9223372036854775807.

Definition largest_rowid (rs : list row) : Z :=
  foldr (λ r m, Z.max (id r) m) 0 rs.

Definition last_rowid (s : store) : Z :=
  Z.max (sqlite_sequence s) (largest_rowid (rows s)).

(** INSERT: the new rowid is one more than the largest the table has ever
    held; when that is already the largest 64-bit integer the statement
    fails (SQLITE_FULL) and nothing changes. *)
Definition add_record (d : fields) (s : store) : option store :=
  if decide (last_rowid s < MAX_ROWID) then
    let v := last_rowid s + 1 in
    Some (mk_store (rows s ++ [mk_row v (stored d)]) v)
  else None.

(** UPDATE ... WHERE id=?: every value column of the matching rows is
    replaced, the id is not assigned. *)
Definition update_record (record_id : Z) (d : fields) (s : store) : store :=
  mk_store
    ((λ r, if decide (id r = record_id) then mk_row (id r) (stored d) else r)
     <$> rows s)
    (sqlite_sequence s).

(** DELETE FROM products WHERE id=? *)
Definition delete_record (record_id : Z) (s : store) : store :=
  mk_store (filter (λ r, id r ≠ record_id) (rows s)) (sqlite_sequence s).

(** ** Data frames *)

Inductive value :=
  | NULL
  | INTEGER (z : Z)
  | REAL (f : float)
  | TEXT (s : string).

Definition of_text (x : text) : value :=
  match x with None => NULL | Some s => TEXT s end.

Definition of_real (x : real) : value :=
  match x with None => NULL | Some f => REAL f end.

Record DataFrame := mk_df { columns : list string; values : list (list value) }.

Definition table_columns : list string :=
  ["id"; "sno"; "date_of_intervention"; "yard_location"; "batchno"; "hold_no";
   "material"; "lots_id"; "sgs_reference_id"; "planned_qty"; "loaded_qty";
   "balance_qty"; "dry_colour"; "wet_colour"; "loi"; "mgo"; "sio2"; "asbestos";
   "truck_no"; "remarks"; "vessel_name"; "sgs_report_id"]%string.

Definition field_values (d : fields) : list value :=
  [of_text (sno d); of_text (date_of_intervention d); of_text (yard_location d);
   of_text (batchno d); of_text (hold_no d); of_text (material d);
   of_text (lots_id d); of_text (sgs_reference_id d); of_real (planned_qty d);
   of_real (loaded_qty d); of_real (balance_qty d); of_text (dry_colour d);
   of_text (wet_colour d); of_real (loi d); of_real (mgo d); of_real (sio2 d);
   of_text (asbestos d); of_text (truck_no d); of_text (remarks d);
   of_text (vessel_name d); of_text (sgs_report_id d)].

(** One result row of [SELECT *]. *)
Definition row_values (r : row) : list value :=
  INTEGER (id r) :: field_values (data r).

(** The two statements the program sends, with their parameters bound. *)
Inductive query :=
  | select_all
  | select_like (p_batchno p_material p_vessel_name : string).

Definition where_clause (q : query) (r : row) : option bool :=
  match q with
  | select_all => Some true
  | select_like p1 p2 p3 =>
      sql_or (sql_or (sql_like (batchno (data r)) p1)
                     (sql_like (material (data r)) p2))
             (sql_like (vessel_name (data r)) p3)
  end.

Definition selected (q : query) (s : store) : list row :=
  filter (λ r, where_holds (where_clause q r) = true) (rows s).

Definition fetch_records (q : query) (s : store) : DataFrame :=
  mk_df table_columns (row_values <$> selected q s).

(** The frame [show_search_filter] obtains for a keyword. *)
Definition search_query (keyword : string) : query :=
  let p := ("%" +:+ keyword +:+ "%")%string in select_like p p p.

Definition show_search_filter (keyword : string) (s : store) : DataFrame :=
  fetch_records (search_query keyword) s.

(** [df[df[label] == v]] for an integer [v], and [.iloc[0]]. *)
Definition column_index (label : string) (cols : list string) : option nat :=
  fst <$> list_find (λ c, c = label) cols.

Definition is_integer (z : Z) (v : value) : bool :=
  match v with INTEGER z' => bool_decide (z' = z) | _ => false end.

Definition loc_eq (label : string) (v : Z) (df : DataFrame) : option DataFrame :=
  i ← column_index label (columns df);
  Some (mk_df (columns df)
          (filter (λ r, from_option (is_integer v) false (r !! i) = true)
                  (values df))).

Definition iloc0 (df : DataFrame) : option (list value) := head (values df).

(** [df[df["id"]==selected_id].iloc[0]], the way [show_all_records] reads
    one record back. *)
Definition record_by_id (selected_id : Z) (df : DataFrame) : option (list value) :=
  loc_eq "id" selected_id df ≫= iloc0.

(** ** The column presentation mapper *)

Definition rename_pairs : list (string * string) :=
  [("sno", "S.No"); ("date_of_intervention", "Date Of Intervention");
   ("yard_location", "Yard Location"); ("batchno", "Batch No.");
   ("hold_no", "Hold No."); ("material", "Material"); ("lots_id", "Lots ID");
   ("sgs_reference_id", "SGS Reference ID");
   ("planned_qty", "Planned Qty (Tons)"); ("loaded_qty", "Loaded Qty (Tons)");
   ("balance_qty", "Balance Qty (Tons)"); ("dry_colour", "Dry Colour");
   ("wet_colour", "Wet Colour"); ("loi", "LOI"); ("mgo", "MgO");
   ("sio2", "SiO₂"); ("asbestos", "Asbestos"); ("truck_no", "Truck No.");
   ("remarks", "Remarks"); ("vessel_name", "Vessel Name");
   ("sgs_report_id", "SGS Report ID")]%string.

Definition rename_map : gmap string string := list_to_map rename_pairs.

(** [DataFrame.rename(columns=m)]: a label that is a key of [m] is replaced
    by its image, any other label stays. *)
Definition rename_label (m : gmap string string) (c : string) : string :=
  default c (m !! c).

Definition rename_columns (df : DataFrame) : DataFrame :=
  mk_df (rename_label rename_map <$> columns df) (values df).

(** ** The tabular export renderer *)

Definition max_rows_per_page : nat := 25.

(** [df.iloc[start:stop]] for [0 <= start <= stop]: the slice is clipped to
    the rows there are. *)
Definition iloc (start stop : nat) (df : DataFrame) : DataFrame :=
  mk_df (columns df) (take (stop - start) (drop start (values df))).

(** A table drawn on a page: its header and its body. *)
Record table := mk_table { colLabels : list string; cellText : list (list value) }.

(** [ax.table(cellText=..., colLabels=...)] and the [savefig] of its figure
    are matplotlib's: the result is the table on the page, or [None] for an
    exception. *)
Class Axes := ax_table : list (list value) → list string → option table.

(** What is used of [ax.table].  It takes the number of columns from the
    first row of the body, [len(cellText[0])], which is an IndexError when
    the body has no row; and a table that is drawn has the header and the
    body that were given. *)
Definition raises_without_rows {ax : Axes} : Prop :=
  ∀ colLabels, ax_table [] colLabels = None.

Definition draws_what_is_given {ax : Axes} : Prop :=
  ∀ cellText colLabels t,
    ax_table cellText colLabels = Some t → t = mk_table colLabels cellText.

(** A table renderer that draws every body that has a row. *)
Definition draws_rows : Axes :=
  λ cellText colLabels,
    match cellText with
    | [] => None
    | _ :: _ => Some (mk_table colLabels cellText)
    end.

Definition num_pages (df : DataFrame) : nat :=
  (length (values df) / max_rows_per_page + 1)%nat.

(** The slice of the frame that goes on a page. *)
Definition sub_df (df : DataFrame) (page : nat) : DataFrame :=
  let start := (page * max_rows_per_page)%nat in
  let stop := (start + max_rows_per_page)%nat in
  iloc start stop df.

(** The document is the list of its pages, in the order they are saved.
    An exception on one page leaves no document. *)
Definition df_to_pdf_bytes {ax : Axes} (df : DataFrame) : option (list table) :=
  mapM (λ page, ax_table (values (sub_df df page)) (columns (sub_df df page)))
       (seq 0 (num_pages df)).

(** The tables the loop of [df_to_pdf_bytes] asks for, drawn or not. *)
Definition page_tables (df : DataFrame) : list table :=
  (λ page, mk_table (columns (sub_df df page)) (values (sub_df df page)))
  <$> seq 0 (num_pages df).

(** ** The report aggregator *)

Inductive report_type := Material_vs_Loaded_Qty | Yard_vs_Planned_Qty.

(** A group key is a text label; rows whose key is NULL belong to no group. *)
Definition key_of (v : value) : option (option string) :=
  match v with
  | NULL => Some None
  | TEXT g => Some (Some g)
  | _ => None
  end.

(** A missing value of a measure, NULL or NaN, is skipped by the sum. *)
Definition skipna (x : real) : option float :=
  f ← x; if is_nan f then None else Some f.

Definition measure_of (v : value) : option (option float) :=
  match v with
  | NULL => Some None
  | REAL f => Some (skipna (Some f))
  | _ => None
  end.

(** One step of the compensated (Kahan) summation of pandas' [group_sum]:
    [sumx] is the running sum and [compensation] the rounding error it
    carries, which is reset when it is NaN. *)
Definition kahan_add (st : float * float) (val : float) : float * float :=
  let '(sumx, compensation) := st in
  let y := (val - compensation)%float in
  let t := (sumx + y)%float in
  let compensation := (t - sumx - y)%float in
  (t, if is_nan compensation then 0%float else compensation).

Definition skipna_add (st : float * float) (v : option float) : float * float :=
  match v with Some f => kahan_add st f | None => st end.

Definition group_add (acc : gmap string (float * float)) (g : string)
    (v : option float) : gmap string (float * float) :=
  <[g := skipna_add (default (0%float, 0%float) (acc !! g)) v]> acc.

Definition accumulate (acc : gmap string (float * float)) (k v : value)
  : option (gmap string (float * float)) :=
  k' ← key_of k;
  v' ← measure_of v;
  Some (match k' with None => acc | Some g => group_add acc g v' end).

(** [df.groupby(by)[measure].sum()]: one pass over the rows, each adding its
    measure to the running sum of its group; the result is the sum of each
    group.  [None] stands for the KeyError or TypeError pandas would
    raise. *)
Definition groupby_sum (by_ measure : string) (df : DataFrame)
  : option (gmap string float) :=
  ki ← column_index by_ (columns df);
  mi ← column_index measure (columns df);
  fmap fst <$>
    foldl (λ acc r, m ← acc; k ← r !! ki; v ← r !! mi; accumulate m k v)
          (Some ∅) (values df).

(** The series [chart_data] that [show_reports] computes from the renamed
    frame. *)
Definition chart_data (rt : report_type) (df : DataFrame)
  : option (gmap string float) :=
  match rt with
  | Material_vs_Loaded_Qty => groupby_sum "Material" "Loaded Qty (Tons)" df
  | Yard_vs_Planned_Qty => groupby_sum "Yard Location" "Planned Qty (Tons)" df
  end.

(** [df.empty]: some axis has length 0. *)
Definition df_empty (df : DataFrame) : bool :=
  match columns df, values df with
  | [], _ | _, [] => true
  | _ :: _, _ :: _ => false
  end.

(** The two reports in terms of the records: the grouping field, its paired
    measure, and the total of a group, which is the compensated sum of the
    measures that are not missing, taken in listing order. *)
Definition group_key (rt : report_type) (r : row) : text :=
  match rt with
  | Material_vs_Loaded_Qty => material (data r)
  | Yard_vs_Planned_Qty => yard_location (data r)
  end.

Definition group_measure (rt : report_type) (r : row) : real :=
  match rt with
  | Material_vs_Loaded_Qty => loaded_qty (data r)
  | Yard_vs_Planned_Qty => planned_qty (data r)
  end.

(** One step of the pass of [groupby_sum], read on a record. *)
Definition add_row (rt : report_type) (m : gmap string (float * float)) (r : row)
  : gmap string (float * float) :=
  match group_key rt r with
  | None => m
  | Some g => group_add m g (skipna (group_measure rt r))
  end.

Definition float_sum (l : list float) : float :=
  (foldl kahan_add (0%float, 0%float) l).1.

Definition group_total (rt : report_type) (g : string) (l : list row)
  : option float :=
  match filter (λ r, group_key rt r = Some g) l with
  | [] => None
  | grp => Some (float_sum (omap (λ r, skipna (group_measure rt r)) grp))
  end.

(** ** The entry form *)

(** A calendar date as [st.date_input] returns it (year 1 to 9999). *)
Record date := mk_date { year : nat; month : nat; day : nat }.

Definition digit (n : nat) : ascii := ascii_of_nat (48 + n mod 10).

(** [str(d)] is the ISO form YYYY-MM-DD. *)
Definition str (d : date) : string :=
  let y := year d in let m := month d in let dd := day d in
  String (digit (y / 1000)) (String (digit (y / 100)) (String (digit (y / 10))
    (String (digit y) (String "-" (String (digit (m / 10)) (String (digit m)
      (String "-" (String (digit (dd / 10)) (String (digit dd) ""))))))))).

Module Form.
Record t := mk {
  sno : string;
  date_of_intervention : date;
  yard_location : string;
  batchno : string;
  hold_no : string;
  material : string;
  lots_id : string;
  sgs_reference_id : string;
  planned_qty : float;
  loaded_qty : float;
  balance_qty : float;
  dry_colour : string;
  wet_colour : string;
  loi : float;
  mgo : float;
  sio2 : float;
  asbestos : string;
  truck_no : string;
  remarks : string;
  vessel_name : string;
  sgs_report_id : string
}.
End Form.

(** The tuple both forms hand to the store. *)
Definition form_data (f : Form.t) : fields :=
  mk_fields (Some (Form.sno f)) (Some (str (Form.date_of_intervention f)))
    (Some (Form.yard_location f)) (Some (Form.batchno f)) (Some (Form.hold_no f))
    (Some (Form.material f)) (Some (Form.lots_id f))
    (Some (Form.sgs_reference_id f)) (Some (Form.planned_qty f))
    (Some (Form.loaded_qty f)) (Some (Form.balance_qty f))
    (Some (Form.dry_colour f)) (Some (Form.wet_colour f)) (Some (Form.loi f))
    (Some (Form.mgo f)) (Some (Form.sio2 f)) (Some (Form.asbestos f))
    (Some (Form.truck_no f)) (Some (Form.remarks f)) (Some (Form.vessel_name f))
    (Some (Form.sgs_report_id f)).

Definition add_new_record (f : Form.t) (s : store) : option store :=
  add_record (form_data f) s.

(** ** Histories of the store *)

Inductive action :=
  | Create (d : fields)
  | Update (record_id : Z) (d : fields)
  | Delete (record_id : Z).

(** A failed statement leaves the table as it was. *)
Definition perform (a : action) (s : store) : store :=
  match a with
  | Create d =>
      match add_record d s with
      | Some s' => s'
      | None => s
      end
  | Update i d => update_record i d s
  | Delete i => delete_record i s
  end.

(** The identifier an action assigns, if it creates a record. *)
Definition assigned (a : action) (s : store) : list Z :=
  match a with
  | Create d =>
      match add_record d s with
      | Some _ => [last_rowid s + 1]
      | None => []
      end
  | _ => []
  end.

(** The store after a history, and the identifiers assigned along it. *)
Fixpoint run (acts : list action) (s : store) : store * list Z :=
  match acts with
  | [] => (s, [])
  | a :: acts' =>
      let '(s', ids) := run acts' (perform a s) in
      (s', assigned a s ++ ids)
  end.

(** What every history keeps true of the store: the counter bounds the
    identifiers of the rows, and no two rows share one. *)
Definition consistent (s : store) : Prop :=
  0 ≤ sqlite_sequence s
  ∧ Forall (λ r, id r ≤ sqlite_sequence s) (rows s)
  ∧ NoDup (id <$> rows s).

(** ** The records page and the search page *)

(** [df[label].tolist()] for a column of integers.  [None] is the KeyError
    of a label that labels no column; a column with other cells is outside
    the model. *)
Definition as_integer (v : value) : option Z :=
  match v with INTEGER z => Some z | _ => None end.

Definition tolist (label : string) (df : DataFrame) : option (list Z) :=
  i ← column_index label (columns df);
  mapM (λ r, r !! i ≫= as_integer) (values df).

(** The entries of a list at the positions a mask keeps. *)
Fixpoint select {A} (mask : list bool) (l : list A) : list A :=
  match mask, l with
  | b :: mask', x :: l' => if b then x :: select mask' l' else select mask' l'
  | _, _ => []
  end.

(** [df.drop(columns=[label])]: every column with that label goes; a label
    that labels no column is a KeyError. *)
Definition drop_columns (label : string) (df : DataFrame) : option DataFrame :=
  if decide (label ∈ columns df) then
    let mask := (λ c, bool_decide (c ≠ label)) <$> columns df in
    Some (mk_df (select mask (columns df)) (select mask <$> values df))
  else None.

(** [l[i]] of a Python list: a negative index counts from the end, an index
    out of range is an IndexError. *)
Definition getitem {A} (l : list A) (i : Z) : option A :=
  let n := Z.of_nat (length l) in
  if decide (0 ≤ i < n) then l !! Z.to_nat i
  else if decide (- n ≤ i < 0) then l !! Z.to_nat (n + i)
  else None.

(** What both pages build from a frame that has rows: the identifiers, the
    frame shown (labels renamed, [id] dropped) and its row numbers (the
    default index 0, 1, ... shifted by one). *)
Record display := mk_display {
  ids : list Z;
  df_display : DataFrame;
  index : list Z
}.

Definition display_of (df : DataFrame) : option display :=
  ids ← tolist "id" df;
  df_display ← drop_columns "id" (rename_columns df);
  let index := (λ i, i + 1) <$> seqZ 0 (Z.of_nat (length (values df_display))) in
  Some (mk_display ids df_display index).

(** A page shows a notice when the frame is empty.  Otherwise it shows the
    display and then, below it, the document for download, or the exception
    [df_to_pdf_bytes] raised; [error] is an exception before anything is
    shown. *)
Inductive page :=
  | notice
  | shown (d : display) (pdf_bytes : option (list table))
  | error.

Definition page_of {ax : Axes} (df : DataFrame) : page :=
  if df_empty df then notice
  else match display_of df with
       | Some d => shown d (df_to_pdf_bytes (df_display d))
       | None => error
       end.

Definition show_all_records {ax : Axes} (s : store) : page :=
  page_of (fetch_records select_all s).

(** The search page after the Search button is pressed. *)
Definition search_results {ax : Axes} (keyword : string) (s : store) : page :=
  page_of (show_search_filter keyword s).

(** [selected_id = ids[selected_idx - 1]] for the row number picked in the
    select box. *)
Definition selected_id (d : display) (selected_idx : Z) : option Z :=
  getitem (ids d) (selected_idx - 1).

(** The records page down to its buttons, which come before the document
    is made: the display, if there are records to show. *)
Definition records_display (s : store) : option display :=
  let df := fetch_records select_all s in
  if df_empty df then None else display_of df.

(** The record the update form is filled from. *)
Definition form_record (selected_idx : Z) (s : store) : option (list value) :=
  d ← records_display s;
  i ← selected_id d selected_idx;
  record_by_id i (fetch_records select_all s).

(** The two buttons of the records page, for the row number picked.  There
    is no button to press when the page shows no records. *)
Definition save_changes (selected_idx : Z) (f : Form.t) (s : store) : option store :=
  d ← records_display s;
  i ← selected_id d selected_idx;
  Some (update_record i (form_data f) s).

Definition delete_clicked (selected_idx : Z) (s : store) : option store :=
  d ← records_display s;
  i ← selected_id d selected_idx;
  Some (delete_record i s).

(** What a user of the forms can do to the store. *)
Inductive form_action :=
  | Save_Record (f : Form.t)
  | Save_Changes (record_id : Z) (f : Form.t)
  | Delete_Record (record_id : Z).

Definition action_of (a : form_action) : action :=
  match a with
  | Save_Record f => Create (form_data f)
  | Save_Changes i f => Update i (form_data f)
  | Delete_Record i => Delete i
  end.

(** Every row has one cell per column. *)
Definition rectangular (df : DataFrame) : Prop :=
  Forall (λ r, length r = length (columns df)) (values df).

(** The dates [datetime.date] can hold, up to the length of the months. *)
Definition valid_date (d : date) : Prop :=
  1 ≤ Z.of_nat (year d) ≤ 9999
  ∧ 1 ≤ Z.of_nat (month d) ≤ 12
  ∧ 1 ≤ Z.of_nat (day d) ≤ 31.

(** The labels of the frame both pages show. *)
Definition display_columns : list string :=
  ["S.No"; "Date Of Intervention"; "Yard Location"; "Batch No."; "Hold No.";
   "Material"; "Lots ID"; "SGS Reference ID"; "Planned Qty (Tons)";
   "Loaded Qty (Tons)"; "Balance Qty (Tons)"; "Dry Colour"; "Wet Colour";
   "LOI"; "MgO"; "SiO₂"; "Asbestos"; "Truck No."; "Remarks"; "Vessel Name";
   "SGS Report ID"]%string.

(** ** Sample data *)

(** A record of the entry form with the given batch number, material,
    vessel name, yard and quantities. *)
Definition sample (b m v y : text) (planned loaded : real) : fields :=
  mk_fields (Some "1") (Some "2025-01-31") y b (Some "H2") m (Some "L-7")
    (Some "SGS-11") planned loaded (Some 0%float) (Some "grey") (Some "dark")
    (Some 1.5%float) (Some 46%float) (Some 0.5%float) (Some "NIL")
    (Some "TRK 9") (Some "") v (Some "R-3").

(** * Properties *)

(** ** The pattern matcher *)

Example like_ignores_ascii_case : like "MAGNESITE" "%mag%" = true.
Proof. reflexivity. Qed.

Example like_underscore_is_one_character :
  like "abc" "a_c" = true ∧ like "ac" "a_c" = false ∧ like "" "_" = false.
Proof. by split_and!. Qed.

Example like_percent_is_any_run :
  like "" "%" = true ∧ like "abXYcd" "ab%cd" = true ∧ like "abc" "b%" = false.
Proof. by split_and!. Qed.

Example like_is_anchored : like "abc" "b" = false ∧ like "abc" "%b%" = true.
Proof. by split_and!. Qed.

(** A character of several bytes is one character to ['_']. *)
Example like_underscore_is_one_utf8_character :
  like "aéc" "a_c" = true ∧ like "SiO₂" "%o_" = true
  ∧ like "₂" "%__%" = false ∧ length (utf8 "SiO₂") = 4%nat.
Proof. by split_and!. Qed.

Example utf8_code_points : utf8 "aé₂" = [97; 233; 8322]%N.
Proof. reflexivity. Qed.

(** The characters 0xFFFE and 0xFFFF are both read as 0xFFFD, and so are
    alike. *)
Example utf8_replacement_character :
  let bytes (a b c : N) : string :=
    String (ascii_of_N a) (String (ascii_of_N b) (String (ascii_of_N c) "")) in
  utf8 (bytes 0xEF 0xBF 0xBE)%N = [0xFFFD]%N
  ∧ utf8 (bytes 0xEF 0xBF 0xBF)%N = [0xFFFD]%N
  ∧ like (bytes 0xEF 0xBF 0xBE)%N (bytes 0xEF 0xBF 0xBF)%N = true.
Proof. by split_and!. Qed.

Lemma patternCompare_percent p s :
  patternCompare (matchAll :: p) s
  = patternCompare p s
    || match s with [] => false | _ :: s' => patternCompare (matchAll :: p) s' end.
Proof. by destruct s. Qed.

Lemma patternCompare_any_run p s :
  patternCompare (matchAll :: p) s = true
  ↔ ∃ a b, s = a ++ b ∧ patternCompare p b = true.
Proof.
  induction s as [|d s IH]; rewrite patternCompare_percent, orb_true_iff.
  - split.
    + intros [H|H]; [|done]. by exists [], [].
    + intros (a & b & Hab & Hb). symmetry in Hab.
      apply app_eq_nil in Hab as [-> ->]. by left.
  - rewrite IH. split.
    + intros [H|(a & b & -> & Hb)].
      * by exists [], (d :: s).
      * by exists (d :: a), b.
    + intros ([|d' a] & b & Hab & Hb); simplify_eq/=.
      * by left.
      * right. by exists a, b.
Qed.

Lemma patternCompare_percent_only s : patternCompare [matchAll] s = true.
Proof.
  apply patternCompare_any_run. exists s, []. by rewrite app_nil_r.
Qed.

Lemma patternCompare_literal kw p s :
  Forall (λ c, c ≠ matchAll ∧ c ≠ matchOne) kw →
  patternCompare (kw ++ p) s = true
  ↔ ∃ m rest, s = m ++ rest ∧ fold_char <$> m = fold_char <$> kw
              ∧ patternCompare p rest = true.
Proof.
  intros Hkw. revert s.
  induction Hkw as [|c kw [Hp Hu] _ IH]; intros s.
  - split.
    + intros H. by exists [], s.
    + intros (m & rest & -> & Hm & Hr).
      apply fmap_nil_inv in Hm as ->. done.
  - cbn [app patternCompare].
    rewrite (bool_decide_eq_false_2 _ Hp), (bool_decide_eq_false_2 _ Hu).
    destruct s as [|d s].
    + split; [done|].
      intros ([|??] & rest & ? & Hm & _); by simplify_eq/=.
    + rewrite orb_false_l, andb_true_iff, bool_decide_eq_true, IH. split.
      * intros (Hcd & m & rest & -> & Hm & Hr).
        exists (d :: m), rest.
        rewrite !fmap_cons. split_and!; [done| congruence |done].
      * intros ([|d' m] & rest & Hs & Hm & Hr); simplify_eq/=.
        split; [done|]. by exists m, rest.
Qed.

Lemma chars_append a b : chars (a +:+ b) = chars a ++ chars b.
Proof.
  unfold chars. induction a as [|c a IH]; simpl; [done|]. by rewrite IH.
Qed.

(** Reading the characters of a text that ends in an ASCII byte. *)
Lemma sqlite3Utf8Read_snoc cur bytes b :
  is_lead b = false → is_continuation b = false →
  sqlite3Utf8Read cur (bytes ++ [b])
  = sqlite3Utf8Read cur bytes ++ [N_of_ascii b].
Proof.
  intros Hl Hc. revert cur.
  induction bytes as [|x bytes IH]; intros cur.
  - cbn. rewrite Hl, Hc. by destruct cur.
  - cbn [app sqlite3Utf8Read]. rewrite !IH.
    destruct cur as [c|]; [destruct (is_continuation x)|];
      by destruct (is_lead x).
Qed.

Lemma utf8_keyword_pattern kw :
  utf8 ("%" +:+ kw +:+ "%") = matchAll :: utf8 kw ++ [matchAll].
Proof.
  unfold utf8. rewrite !chars_append.
  change (chars "%") with ["%"%char]. cbn [app].
  change (sqlite3Utf8Read None ("%"%char :: ?l))
    with (matchAll :: sqlite3Utf8Read None l).
  by rewrite sqlite3Utf8Read_snoc.
Qed.

Lemma decoded_not_ascii c : (128 <= decoded c)%N.
Proof.
  unfold decoded.
  destruct (c <? 128)%N eqn:Hc; [done|]. apply N.ltb_ge in Hc. cbn [orb].
  by destruct (_ || _).
Qed.

(** A character of ASCII is a byte of the text. *)
Lemma sqlite3Utf8Read_Forall (P : ascii → Prop) cur bytes :
  Forall P bytes →
  Forall (λ c, (128 <= c)%N ∨ P (ascii_of_N c)) (sqlite3Utf8Read cur bytes).
Proof.
  intros Hbytes. revert cur.
  induction Hbytes as [|b bytes Hb _ IH]; intros cur.
  - destruct cur; cbn; [|constructor].
    constructor; [|constructor]. left. apply decoded_not_ascii.
  - cbn [sqlite3Utf8Read].
    assert (Forall (λ c, (128 <= c)%N ∨ P (ascii_of_N c))
              (if is_lead b then sqlite3Utf8Read (Some (lead b)) bytes
               else N_of_ascii b :: sqlite3Utf8Read None bytes)) as Hnext.
    { destruct (is_lead b); [apply IH|].
      constructor; [|apply IH]. right. by rewrite ascii_N_embedding. }
    destruct cur as [c|]; [|done].
    destruct (is_continuation b); [apply IH|].
    constructor; [|done]. left. apply decoded_not_ascii.
Qed.

Lemma wildcard_free_utf8 kw :
  wildcard_free kw → Forall (λ c, c ≠ matchAll ∧ c ≠ matchOne) (utf8 kw).
Proof.
  intros Hkw. unfold utf8.
  eapply Forall_impl; [by apply sqlite3Utf8Read_Forall|].
  intros c [Hc|Hc]; cbn beta in Hc.
  - split; intros ->; by vm_compute in Hc.
  - split; intros ->; apply Hc; [by left | by right].
Qed.

(** [x LIKE '%kw%'] for a keyword without wildcards is containment up to
    ASCII letter case. *)
Lemma like_keyword kw x :
  wildcard_free kw →
  like x ("%" +:+ kw +:+ "%") = true ↔ substring_nocase (utf8 kw) (utf8 x).
Proof.
  intros Hkw%wildcard_free_utf8. unfold like. rewrite utf8_keyword_pattern.
  rewrite patternCompare_any_run. split.
  - intros (a & b & Hx & Hb).
    apply patternCompare_literal in Hb as (m & rest & -> & Hm & _); [|done].
    by exists a, m, rest.
  - intros (a & m & b & Hx & Hm). exists a, (m ++ b). split; [done|].
    apply patternCompare_literal; [done|]. exists m, b.
    split_and!; [done..|]. apply patternCompare_percent_only.
Qed.

Lemma is_substring_spec kw s :
  is_substring kw s = true ↔ substring_of kw s.
Proof.
  induction s as [|d s IH]; cbn; rewrite orb_true_iff, bool_decide_eq_true.
  - split.
    + intros [[b Hb]|?]; [|done]. by exists [], b.
    + intros ([|??] & b & Hab); simplify_eq/=. left. by exists b.
  - rewrite IH. split.
    + intros [[b Hb]|(a & b & ->)].
      * by exists [], b.
      * by exists (d :: a), b.
    + intros ([|d' a] & b & Hab); simplify_eq/=.
      * left. by exists b.
      * right. by exists a, b.
Qed.

(** ** The result of a query *)

Global Instance of_text_inj : Inj (=) (=) of_text.
Proof. intros [?|] [?|] H; by simplify_eq/=. Qed.

Global Instance of_real_inj : Inj (=) (=) of_real.
Proof. intros [?|] [?|] H; by simplify_eq/=. Qed.

Global Instance field_values_inj : Inj (=) (=) field_values.
Proof.
  intros [] [] H. unfold field_values in H.
  cbn [sno date_of_intervention yard_location batchno hold_no material lots_id
       sgs_reference_id planned_qty loaded_qty balance_qty dry_colour
       wet_colour loi mgo sio2 asbestos truck_no remarks vessel_name
       sgs_report_id] in H.
  injection H as H1 H2 H3 H4 H5 H6 H7 H8 H9 H10 H11 H12 H13 H14 H15 H16 H17
    H18 H19 H20 H21.
  repeat match goal with
         | H : of_text _ = of_text _ |- _ => apply (inj of_text) in H
         | H : of_real _ = of_real _ |- _ => apply (inj of_real) in H
         end.
  by subst.
Qed.

Global Instance row_values_inj : Inj (=) (=) row_values.
Proof.
  intros [i d] [j e] H. unfold row_values in H. cbn [id data] in H.
  pose proof (f_equal head H) as Hi. pose proof (f_equal tail H) as Hd.
  cbn [head tail] in Hi, Hd. apply (inj field_values) in Hd. by simplify_eq.
Qed.

Lemma elem_of_fetch_records q s r :
  row_values r ∈ values (fetch_records q s)
  ↔ r ∈ rows s ∧ where_holds (where_clause q r) = true.
Proof.
  unfold fetch_records, selected. cbn [values].
  rewrite (list_elem_of_fmap_inj row_values), list_elem_of_filter. tauto.
Qed.

Lemma elem_of_fetch_all s r :
  row_values r ∈ values (fetch_records select_all s) ↔ r ∈ rows s.
Proof. rewrite elem_of_fetch_records. cbn. tauto. Qed.

Lemma where_holds_or3 a b c :
  where_holds (sql_or (sql_or a b) c) = true
  ↔ a = Some true ∨ b = Some true ∨ c = Some true.
Proof.
  destruct a as [[]|], b as [[]|], c as [[]|]; cbn; split;
    first [done | intros [?|[?|?]]; done | tauto].
Qed.

Lemma sql_like_true x p :
  sql_like x p = Some true ↔ ∃ s, x = Some s ∧ like s p = true.
Proof.
  destruct x as [s|]; cbn.
  - split; [intros [= H]; by exists s | by intros (? & [= <-] & ->)].
  - split; [done | by intros (? & ? & _)].
Qed.

Lemma selected_all s : selected select_all s = rows s.
Proof.
  unfold selected. induction (rows s) as [|r l IH]; [done|].
  rewrite filter_cons_True by done. by rewrite IH.
Qed.

Lemma fetch_records_sublist q s :
  values (fetch_records q s) `sublist_of` values (fetch_records select_all s).
Proof.
  unfold fetch_records. cbn [values]. apply fmap_sublist.
  rewrite selected_all. apply sublist_filter.
Qed.

(** ** Keyword search *)

Lemma elem_of_search kw s r :
  row_values r ∈ values (show_search_filter kw s)
  ↔ r ∈ rows s
    ∧ ((∃ t, batchno (data r) = Some t ∧ like t ("%" +:+ kw +:+ "%") = true)
       ∨ (∃ t, material (data r) = Some t ∧ like t ("%" +:+ kw +:+ "%") = true)
       ∨ (∃ t, vessel_name (data r) = Some t
               ∧ like t ("%" +:+ kw +:+ "%") = true)).
Proof.
  unfold show_search_filter, search_query.
  rewrite elem_of_fetch_records. cbn [where_clause].
  by rewrite where_holds_or3, !sql_like_true.
Qed.

Lemma like_empty_keyword t : like t ("%" +:+ "" +:+ "%") = true.
Proof.
  apply like_keyword; [by constructor|]. by exists [], [], (utf8 t).
Qed.

Lemma some_and_true {A} (x : option A) (P : A → Prop) :
  (∀ t, P t) → (∃ t, x = Some t ∧ P t) ↔ x ≠ None.
Proof.
  intros HP. destruct x as [a|].
  - split; [done|]. intros _. by exists a.
  - split; [by intros (? & ? & _) | done].
Qed.

(** C1 (as amended): for a keyword without ['%'] and ['_'], the search
    returns exactly the listed records whose batch number, material or
    vessel name is a string that contains the keyword up to ASCII letter
    case, in listing order; and the empty keyword returns exactly the
    listed records in which at least one of the three fields is not NULL. *)
Theorem search_returns_nocase_matches kw s r :
  wildcard_free kw →
  (row_values r ∈ values (show_search_filter kw s)
   ↔ row_values r ∈ values (fetch_records select_all s)
     ∧ (text_contains_nocase kw (batchno (data r))
        ∨ text_contains_nocase kw (material (data r))
        ∨ text_contains_nocase kw (vessel_name (data r))))
  ∧ (row_values r ∈ values (show_search_filter "" s)
     ↔ row_values r ∈ values (fetch_records select_all s)
       ∧ (batchno (data r) ≠ None
          ∨ material (data r) ≠ None
          ∨ vessel_name (data r) ≠ None))
  ∧ values (show_search_filter kw s)
      `sublist_of` values (fetch_records select_all s).
Proof.
  intros Hkw. split_and!.
  - rewrite elem_of_search, elem_of_fetch_all. unfold text_contains_nocase.
    assert (∀ t, like t ("%" +:+ kw +:+ "%") = true
                 ↔ substring_nocase (utf8 kw) (utf8 t)) as Hl
      by (intros t; by apply like_keyword).
    by setoid_rewrite Hl.
  - rewrite elem_of_search, elem_of_fetch_all.
    by rewrite !(some_and_true _ _ like_empty_keyword).
  - apply fetch_records_sublist.
Qed.

Lemma search_returns_nocase_matches_witness :
  let d := sample (Some "B-17") (Some "MAGNESITE") (Some "Vega")
                  (Some "Yard A") (Some 10%float) (Some 5%float) in
  let s := perform (Create d) empty_store in
  wildcard_free "mag"
  ∧ row_values (mk_row 1 d) ∈ values (show_search_filter "mag" s).
Proof.
  intros d s.
  assert (wildcard_free "mag") as Hkw
    by (repeat constructor; intros [?|?]; discriminate).
  split; [done|].
  apply (proj1 (search_returns_nocase_matches "mag" s (mk_row 1 d) Hkw)).
  split.
  - apply elem_of_fetch_all. vm_compute. left.
  - right. left. exists "MAGNESITE"%string. split; [done|].
    by exists (utf8 ""), (utf8 "MAG"), (utf8 "NESITE").
Defined.

(** C1 (as stated) fails: the search is not case sensitive.  The keyword
    "mag" finds the record whose material is "MAGNESITE", and none of its
    three fields contains "mag". *)
Lemma search_is_not_case_sensitive :
  let d := sample (Some "B-17") (Some "MAGNESITE") (Some "Vega")
                  (Some "Yard A") (Some 10%float) (Some 5%float) in
  let s := perform (Create d) empty_store in
  row_values (mk_row 1 d) ∈ values (show_search_filter "mag" s)
  ∧ ¬ (text_contains "mag" (batchno d)
       ∨ text_contains "mag" (material d)
       ∨ text_contains "mag" (vessel_name d)).
Proof.
  intros d s. split.
  - vm_compute. left.
  - intros [H|[H|H]]; destruct H as (t & [= <-] & H);
      apply is_substring_spec in H; vm_compute in H; discriminate.
Qed.

(** With the empty keyword one field that is not NULL is enough: the OR of
    a NULL and a true comparison is true. *)
Lemma search_empty_keyword_null_fields :
  let e := sample None (Some "Talc") None None None None in
  let s := perform (Create e) empty_store in
  row_values (mk_row 1 e) ∈ values (show_search_filter "" s)
  ∧ batchno e = None ∧ vessel_name e = None.
Proof. intros e s. split; [vm_compute; left | done]. Qed.



(** ** Reading one record back *)

Lemma column_index_id : column_index "id" table_columns = Some 0%nat.
Proof. reflexivity. Qed.

Lemma record_by_id_fetch i q s :
  record_by_id i (fetch_records q s)
  = row_values <$> head (filter (λ r, id r = i) (selected q s)).
Proof.
  unfold record_by_id, loc_eq, iloc0, fetch_records. cbn [columns values].
  change (column_index "id" table_columns) with (Some 0%nat).
  cbn [mbind option_bind]. induction (selected q s) as [|r l IH]; [done|].
  rewrite fmap_cons, !filter_cons. cbn [lookup list_lookup row_values from_option is_integer].
  destruct (decide (id r = i)) as [->|Hne].
  - rewrite bool_decide_eq_true_2 by done.
    rewrite decide_True by done. done.
  - rewrite bool_decide_eq_false_2 by done.
    rewrite decide_False by done. done.
Qed.

Lemma largest_rowid_ge l r : r ∈ l → id r ≤ largest_rowid l.
Proof.
  induction l as [|x l IH]; [by rewrite elem_of_nil|].
  change (largest_rowid (x :: l)) with (Z.max (id x) (largest_rowid l)).
  rewrite elem_of_cons. intros [->|Hr]; [lia|]. specialize (IH Hr). lia.
Qed.

Lemma filter_id_fresh l i :
  largest_rowid l < i → filter (λ r, id r = i) l = [].
Proof.
  induction l as [|x l IH]; [done|].
  change (largest_rowid (x :: l)) with (Z.max (id x) (largest_rowid l)).
  intros Hi. rewrite filter_cons_False by lia. apply IH. lia.
Qed.

Example str_pads_with_zeros : str (mk_date 987 3 5) = "0987-03-05"%string.
Proof. reflexivity. Qed.

(** Zero is the one float of which the column loses something: 0.0 and
    -0.0 are equal as numbers. *)
Lemma is_zero_inv x : is_zero x = true → x = 0%float ∨ x = neg_zero.
Proof.
  unfold is_zero. rewrite FloatAxioms.eqb_spec. intros H.
  pose proof (FloatAxioms.SF2Prim_Prim2SF x) as Hx.
  change (FloatOps.Prim2SF PrimFloat.zero) with (SpecFloat.S754_zero false) in H.
  destruct (FloatOps.Prim2SF x) as [[]| [] | |[] m e]; try done;
    rewrite <- Hx; auto.
Qed.

Lemma zero_is_not_neg_zero : 0%float ≠ neg_zero.
Proof. intros H. apply (f_equal classify) in H. by vm_compute in H. Qed.

Lemma bind_double_exact f :
  is_nan f = false → f ≠ neg_zero → bind_double f = Some f.
Proof.
  intros Hn Hz. unfold bind_double. rewrite Hn.
  destruct (is_zero f) eqn:H0; [|done].
  by destruct (is_zero_inv f H0) as [->|?].
Qed.

Lemma bind_real_exact x : exact x → bind_real x = x.
Proof.
  destruct x as [f|]; [|done]. intros Hx.
  destruct (Hx f eq_refl) as [Hn Hz]. by apply bind_double_exact.
Qed.

Lemma exact_Some f : is_nan f = false → classify f ≠ FloatClass.NZero → exact (Some f).
Proof. intros Hn Hz g [= <-]. split; [done|]. by intros ->. Qed.

Lemma exact_None : exact None.
Proof. by intros f. Qed.

Lemma stored_exact d : Forall exact (measures d) → stored d = d.
Proof.
  intros H. destruct d. unfold measures in H. cbn in H.
  repeat (apply Forall_cons in H as [?%bind_real_exact H]).
  unfold stored. cbn -[bind_real]. congruence.
Qed.

Example bind_double_nan : bind_double nan = None.
Proof. reflexivity. Qed.

Example bind_double_neg_zero : bind_double neg_zero = Some 0%float.
Proof. reflexivity. Qed.

Example bind_double_infinity : bind_double infinity = Some infinity.
Proof. reflexivity. Qed.

(** The store-level round trip: the new row is found under the identifier
    it was given and holds the tuple that was inserted. *)
Lemma add_record_read_back d s :
  last_rowid s < MAX_ROWID →
  ∃ s', add_record d s = Some s'
        ∧ sqlite_sequence s' = last_rowid s + 1
        ∧ record_by_id (last_rowid s + 1) (fetch_records select_all s')
          = Some (INTEGER (last_rowid s + 1) :: field_values (stored d)).
Proof.
  intros Hs. unfold add_record. rewrite decide_True by done.
  eexists. split_and!; [done..|].
  rewrite record_by_id_fetch, selected_all. cbn [rows].
  rewrite filter_app, filter_id_fresh by (unfold last_rowid; lia).
  rewrite filter_cons_True by done. done.
Qed.

(** C3 (amended): a record saved from the entry form is given the next
    identifier, and read back by that identifier it holds every text field
    as entered, the date as its ISO string, and every measure as the REAL
    column keeps it: NULL for NaN, 0.0 for -0.0, and the float itself
    otherwise.  When no measure is NaN or -0.0 every field is read back as
    entered. *)
Theorem create_read_back_roundtrip (f : Form.t) (s : store) :
  last_rowid s < MAX_ROWID →
  ∃ s', add_new_record f s = Some s'
    ∧ sqlite_sequence s' = last_rowid s + 1
    ∧ record_by_id (last_rowid s + 1) (fetch_records select_all s')
      = Some [INTEGER (last_rowid s + 1);
              TEXT (Form.sno f);
              TEXT (str (Form.date_of_intervention f));
              TEXT (Form.yard_location f);
              TEXT (Form.batchno f);
              TEXT (Form.hold_no f);
              TEXT (Form.material f);
              TEXT (Form.lots_id f);
              TEXT (Form.sgs_reference_id f);
              of_real (bind_double (Form.planned_qty f));
              of_real (bind_double (Form.loaded_qty f));
              of_real (bind_double (Form.balance_qty f));
              TEXT (Form.dry_colour f);
              TEXT (Form.wet_colour f);
              of_real (bind_double (Form.loi f));
              of_real (bind_double (Form.mgo f));
              of_real (bind_double (Form.sio2 f));
              TEXT (Form.asbestos f);
              TEXT (Form.truck_no f);
              TEXT (Form.remarks f);
              TEXT (Form.vessel_name f);
              TEXT (Form.sgs_report_id f)]
    ∧ (Forall exact (measures (form_data f)) →
       record_by_id (last_rowid s + 1) (fetch_records select_all s')
       = Some [INTEGER (last_rowid s + 1);
               TEXT (Form.sno f);
               TEXT (str (Form.date_of_intervention f));
               TEXT (Form.yard_location f);
               TEXT (Form.batchno f);
               TEXT (Form.hold_no f);
               TEXT (Form.material f);
               TEXT (Form.lots_id f);
               TEXT (Form.sgs_reference_id f);
               REAL (Form.planned_qty f);
               REAL (Form.loaded_qty f);
               REAL (Form.balance_qty f);
               TEXT (Form.dry_colour f);
               TEXT (Form.wet_colour f);
               REAL (Form.loi f);
               REAL (Form.mgo f);
               REAL (Form.sio2 f);
               TEXT (Form.asbestos f);
               TEXT (Form.truck_no f);
               TEXT (Form.remarks f);
               TEXT (Form.vessel_name f);
               TEXT (Form.sgs_report_id f)]).
Proof.
  intros Hs.
  destruct (add_record_read_back (form_data f) s Hs) as (s' & Hadd & Hid & Hget).
  exists s'. split_and!; [done..| |].
  - by rewrite Hget.
  - intros Hex. by rewrite Hget, stored_exact.
Qed.

Lemma create_read_back_roundtrip_witness :
  let f := Form.mk "1" (mk_date 2025 1 31) "Yard A" "B-17" "H2" "MAGNESITE" "L-7"
             "SGS-11" 10 5 5 "grey" "dark" 1.5 46 0.5 "NIL" "TRK 9" "" "Vega"
             "R-3" in
  last_rowid empty_store < MAX_ROWID
  ∧ ∃ s', add_new_record f empty_store = Some s'
      ∧ sqlite_sequence s' = 1
      ∧ record_by_id 1 (fetch_records select_all s')
        = Some [INTEGER 1; TEXT "1"; TEXT "2025-01-31"; TEXT "Yard A";
                TEXT "B-17"; TEXT "H2"; TEXT "MAGNESITE"; TEXT "L-7";
                TEXT "SGS-11"; REAL 10; REAL 5; REAL 5; TEXT "grey";
                TEXT "dark"; REAL 1.5; REAL 46; REAL 0.5; TEXT "NIL";
                TEXT "TRK 9"; TEXT ""; TEXT "Vega"; TEXT "R-3"].
Proof.
  intros f. assert (last_rowid empty_store < MAX_ROWID) as H by (vm_compute; done).
  split; [done|].
  destruct (create_read_back_roundtrip f empty_store H) as (s' & Ha & Hn & Hr & _).
  exists s'. split_and!; [done..|]. exact Hr.
Defined.

(** C3 (as stated) fails: a measure that is NaN is read back as NULL, and
    -0.0 is read back as 0.0, so these two fields do not round-trip. *)
Lemma create_read_back_changes_nan_and_negative_zero :
  let f := Form.mk "1" (mk_date 2025 1 31) "Yard A" "B-17" "H2" "MAGNESITE" "L-7"
             "SGS-11" nan neg_zero 5 "grey" "dark" 1.5 46 0.5 "NIL" "TRK 9" ""
             "Vega" "R-3" in
  ∃ s', add_new_record f empty_store = Some s'
    ∧ record_by_id 1 (fetch_records select_all s')
      = Some [INTEGER 1; TEXT "1"; TEXT "2025-01-31"; TEXT "Yard A";
              TEXT "B-17"; TEXT "H2"; TEXT "MAGNESITE"; TEXT "L-7";
              TEXT "SGS-11"; NULL; REAL 0; REAL 5; TEXT "grey";
              TEXT "dark"; REAL 1.5; REAL 46; REAL 0.5; TEXT "NIL";
              TEXT "TRK 9"; TEXT ""; TEXT "Vega"; TEXT "R-3"]
    ∧ NULL ≠ REAL (Form.planned_qty f)
    ∧ REAL 0 ≠ REAL (Form.loaded_qty f)
    ∧ record_by_id 1 (fetch_records select_all s')
      ≠ Some (INTEGER 1 :: field_values (form_data f)).
Proof.
  intros f. eexists. split_and!; [reflexivity|reflexivity|done| |done].
  intros H. apply zero_is_not_neg_zero.
  exact (f_equal (λ v, match v with REAL x => x | _ => 0%float end) H).
Qed.

(** ** Update and delete *)

Lemma update_rows_absent (l : list row) i d :
  (∀ r, r ∈ l → id r ≠ i) →
  (λ r, if decide (id r = i) then mk_row (id r) d else r) <$> l = l.
Proof.
  induction l as [|r l IH]; intros Habs; [done|].
  rewrite fmap_cons, decide_False by (apply Habs; left).
  rewrite IH; [done|]. intros r' Hr'. apply Habs. by right.
Qed.

Lemma delete_rows_absent (l : list row) i :
  (∀ r, r ∈ l → id r ≠ i) → filter (λ r, id r ≠ i) l = l.
Proof.
  induction l as [|r l IH]; intros Habs; [done|].
  rewrite filter_cons_True by (apply Habs; left).
  rewrite IH; [done|]. intros r' Hr'. apply Habs. by right.
Qed.

(** C4: updating or deleting an identifier that no record has changes
    nothing: the store, hence its record count, is as before. *)
Theorem update_delete_absent_noop (i : Z) (d : fields) (s : store) :
  (∀ r, r ∈ rows s → id r ≠ i) →
  update_record i d s = s
  ∧ delete_record i s = s
  ∧ length (rows (update_record i d s)) = length (rows s)
  ∧ length (rows (delete_record i s)) = length (rows s).
Proof.
  intros Habs.
  assert (update_record i d s = s) as Hu.
  { destruct s as [l n]. unfold update_record. cbn [rows sqlite_sequence] in *.
    by rewrite update_rows_absent. }
  assert (delete_record i s = s) as Hd.
  { destruct s as [l n]. unfold delete_record. cbn [rows sqlite_sequence] in *.
    by rewrite delete_rows_absent. }
  by rewrite Hu, Hd.
Qed.

Lemma update_delete_absent_noop_witness :
  let d := sample (Some "B-17") (Some "MAGNESITE") (Some "Vega")
                  (Some "Yard A") (Some 10%float) (Some 5%float) in
  let s := perform (Create d) empty_store in
  update_record 7 d s = s ∧ delete_record 7 s = s.
Proof.
  intros d s.
  assert (∀ r, r ∈ rows s → id r ≠ 7) as H.
  { intros r Hr. vm_compute in Hr. apply list_elem_of_singleton in Hr.
    by subst r. }
  destruct (update_delete_absent_noop 7 d s H) as (Hu & Hd & _). by split.
Defined.

Lemma head_update_delete (l : list row) i j d :
  i ≠ j → (∃ r, r ∈ l ∧ id r = i) →
  head (filter (λ r, id r = i)
          (filter (λ r, id r ≠ j)
             ((λ r, if decide (id r = i) then mk_row (id r) d else r) <$> l)))
  = Some (mk_row i d).
Proof.
  intros Hij. induction l as [|x l IH]; intros (r & Hr & Hi).
  - by apply elem_of_nil in Hr.
  - rewrite fmap_cons. destruct (decide (id x = i)) as [Hx|Hx].
    + rewrite filter_cons_True by (cbn; congruence).
      rewrite filter_cons_True by done. by rewrite Hx.
    + apply elem_of_cons in Hr as [->|Hr]; [done|].
      destruct (decide (id x = j)) as [Hj|Hj].
      * rewrite filter_cons_False by (intros ?; done). apply IH. eauto.
      * rewrite filter_cons_True by done.
        rewrite filter_cons_False by done. apply IH. eauto.
Qed.

(** C6 (amended): after a record is updated and a record with another
    identifier is deleted, the updated record is still listed, and reading
    it back by its identifier gives the new field values as the columns
    keep them: every text as given, a measure that is NaN as NULL, -0.0 as
    0.0, any other float as given.  When no measure is NaN or -0.0 these
    are exactly the new field values. *)
Theorem update_survives_other_delete (s : store) (i j : Z) (d : fields) :
  (∃ r, r ∈ rows s ∧ id r = i) →
  i ≠ j →
  let s' := delete_record j (update_record i d s) in
  mk_row i (stored d) ∈ rows s'
  ∧ (∀ r, r ∈ rows s' → id r = i → data r = stored d)
  ∧ record_by_id i (fetch_records select_all s')
    = Some (INTEGER i :: field_values (stored d))
  ∧ (Forall exact (measures d) →
     record_by_id i (fetch_records select_all s')
     = Some (INTEGER i :: field_values d)).
Proof.
  intros Hex Hij s'.
  pose proof (head_update_delete (rows s) i j (stored d) Hij Hex) as Hhead.
  assert (record_by_id i (fetch_records select_all s')
          = Some (INTEGER i :: field_values (stored d))) as Hget.
  { rewrite record_by_id_fetch, selected_all.
    subst s'. unfold delete_record, update_record. cbn [rows].
    by rewrite Hhead. }
  split_and!.
  - subst s'. unfold delete_record, update_record. cbn [rows].
    apply list_elem_of_filter. split; [cbn; congruence|].
    destruct Hex as (r & Hr & Hi).
    apply list_elem_of_fmap. exists r. split; [|done].
    cbn beta. rewrite decide_True by done. by rewrite Hi.
  - subst s'. unfold delete_record, update_record. cbn [rows].
    intros r Hr Hi. apply list_elem_of_filter in Hr as [_ Hr].
    apply list_elem_of_fmap in Hr as (r0 & -> & _).
    destruct (decide (id r0 = i)); [done|]. done.
  - done.
  - intros Hd. by rewrite Hget, stored_exact.
Qed.

Lemma update_survives_other_delete_witness :
  let d := sample (Some "B-17") (Some "MAGNESITE") (Some "Vega")
                  (Some "Yard A") (Some 10%float) (Some 5%float) in
  let e := sample (Some "B-18") (Some "Talc") (Some "Orion")
                  (Some "Yard B") (Some 7%float) (Some 3%float) in
  let s := perform (Create e) (perform (Create d) empty_store) in
  record_by_id 1 (fetch_records select_all (delete_record 2 (update_record 1 e s)))
  = Some (INTEGER 1 :: field_values e).
Proof.
  intros d e s.
  assert (∃ r, r ∈ rows s ∧ id r = 1) as Hex.
  { exists (mk_row 1 d). split; [vm_compute; left | done]. }
  assert (1 ≠ 2) as Hne by done.
  assert (Forall exact (measures e)) as He.
  { repeat (apply Forall_cons; split; [apply exact_Some; by vm_compute|]).
    by apply Forall_nil. }
  exact (proj2 (proj2 (proj2 (update_survives_other_delete s 1 2 e Hex Hne))) He).
Defined.

(** C6 (as stated) fails: updated with a planned quantity that is NaN and a
    loaded quantity of -0.0, the record reads back NULL and 0.0, not the
    values of the update. *)
Lemma update_read_back_changes_nan_and_negative_zero :
  let d := sample (Some "B-17") (Some "MAGNESITE") (Some "Vega")
                  (Some "Yard A") (Some 10%float) (Some 5%float) in
  let e := sample (Some "B-18") (Some "Talc") (Some "Orion")
                  (Some "Yard B") (Some nan) (Some neg_zero) in
  let e' := sample (Some "B-18") (Some "Talc") (Some "Orion")
                   (Some "Yard B") None (Some 0%float) in
  let s := perform (Create d) (perform (Create d) empty_store) in
  let s' := delete_record 2 (update_record 1 e s) in
  id <$> rows s = [1; 2]
  ∧ record_by_id 1 (fetch_records select_all s')
    = Some (INTEGER 1 :: field_values e')
  ∧ record_by_id 1 (fetch_records select_all s')
    ≠ Some (INTEGER 1 :: field_values e).
Proof. intros d e e' s s'. by split_and!. Qed.

(** ** Identifiers along a history *)

(** Nothing is a member of the empty list. *)
Ltac no_members := let H := fresh in intros ? H; by apply elem_of_nil in H.

Lemma largest_rowid_le l n :
  0 ≤ n → Forall (λ r, id r ≤ n) l → largest_rowid l ≤ n.
Proof.
  intros Hn. induction 1 as [|x l Hx _ IH]; [done|].
  change (largest_rowid (x :: l)) with (Z.max (id x) (largest_rowid l)). lia.
Qed.

Lemma consistent_last_rowid s : consistent s → last_rowid s = sqlite_sequence s.
Proof.
  intros (Hn & Hle & _). unfold last_rowid.
  pose proof (largest_rowid_le _ _ Hn Hle). lia.
Qed.

Lemma update_record_ids i d s : id <$> rows (update_record i d s) = id <$> rows s.
Proof.
  unfold update_record. cbn [rows]. rewrite <- list_fmap_compose.
  apply list_fmap_ext. intros _ r _. cbn. by destruct (decide (id r = i)).
Qed.

Lemma consistent_empty : consistent empty_store.
Proof. unfold consistent. split_and!; [done| constructor | constructor]. Qed.

Lemma consistent_add_record d s s' :
  consistent s → add_record d s = Some s' →
  consistent s'
  ∧ sqlite_sequence s' = sqlite_sequence s + 1
  ∧ rows s' = rows s ++ [mk_row (sqlite_sequence s + 1) (stored d)].
Proof.
  intros Hs. pose proof (consistent_last_rowid s Hs) as Hl.
  destruct Hs as (Hn & Hle & Hnd). unfold add_record.
  destruct (decide _); [|done]. intros [= <-]. rewrite Hl.
  unfold consistent. cbn [rows sqlite_sequence].
  split_and!; [lia| | |done|done].
  - apply Forall_app. split.
    + eapply Forall_impl; [done|]. cbn. intros; lia.
    + constructor; [cbn; lia | constructor].
  - rewrite fmap_app. apply NoDup_app. split_and!; [done| |apply NoDup_singleton].
    intros i Hi. cbn. rewrite list_elem_of_singleton. intros ->.
    apply list_elem_of_fmap in Hi as (r & Hr & Hin).
    rewrite Forall_forall in Hle. specialize (Hle r Hin). lia.
Qed.

Lemma consistent_perform a s :
  consistent s →
  consistent (perform a s)
  ∧ sqlite_sequence s ≤ sqlite_sequence (perform a s)
  ∧ (∀ i, i ∈ assigned a s →
          i = sqlite_sequence s + 1 ∧ sqlite_sequence (perform a s) = i)
  ∧ (∀ x, x ∈ rows (perform a s) →
          id x ∈ id <$> rows s ∨ id x ∈ assigned a s).
Proof.
  intros Hs. pose proof (consistent_last_rowid s Hs) as Hl.
  destruct a as [d|i d|i]; cbn [perform assigned].
  - destruct (add_record d s) as [s'|] eqn:Hadd.
    + destruct (consistent_add_record d s s' Hs Hadd) as (Hs' & Hseq & Hrows).
      rewrite Hl. split_and!; [done|lia| |].
      * intros i ->%list_elem_of_singleton. done.
      * intros x. rewrite Hrows, elem_of_app, list_elem_of_singleton.
        intros [Hx| ->]; [left; by apply list_elem_of_fmap_2|right; cbn; left].
    + split_and!; [done|lia| |].
      * no_members.
      * intros x Hx. left. by apply list_elem_of_fmap_2.
  - destruct Hs as (Hn & Hle & Hnd). unfold consistent. split_and!.
    + done.
    + cbn [update_record rows sqlite_sequence].
      apply Forall_fmap. eapply Forall_impl; [done|].
      intros r Hr. cbn. by destruct (decide (id r = i)).
    + by rewrite update_record_ids.
    + done.
    + no_members.
    + intros x Hx. left. rewrite <- (update_record_ids i d s).
      by apply list_elem_of_fmap_2.
  - destruct Hs as (Hn & Hle & Hnd). unfold consistent. split_and!.
    + done.
    + cbn [delete_record rows sqlite_sequence].
      rewrite Forall_forall in Hle. apply Forall_forall.
      intros r [_ Hr]%list_elem_of_filter. by apply Hle.
    + cbn [delete_record rows]. eapply sublist_NoDup; [done|].
      apply fmap_sublist, sublist_filter.
    + done.
    + no_members.
    + intros x Hx. left. cbn [delete_record rows] in Hx.
      apply list_elem_of_filter in Hx as [_ Hx]. by apply list_elem_of_fmap_2.
Qed.

Lemma run_cons a acts s :
  run (a :: acts) s
  = ((run acts (perform a s)).1, assigned a s ++ (run acts (perform a s)).2).
Proof. cbn [run]. by destruct (run acts (perform a s)). Qed.

Lemma run_consistent acts s :
  consistent s →
  consistent (run acts s).1
  ∧ sqlite_sequence s ≤ sqlite_sequence (run acts s).1
  ∧ NoDup (run acts s).2
  ∧ (∀ i, i ∈ (run acts s).2 →
          sqlite_sequence s < i ≤ sqlite_sequence (run acts s).1)
  ∧ (∀ x, x ∈ rows (run acts s).1 →
          id x ∈ id <$> rows s ∨ id x ∈ (run acts s).2).
Proof.
  revert s. induction acts as [|a acts IH]; intros s Hs.
  - cbn. split_and!; [done|lia|constructor| |].
    + no_members.
    + intros x Hx. left. by apply list_elem_of_fmap_2.
  - rewrite run_cons. cbn [fst snd].
    destruct (consistent_perform a s Hs) as (Hp & Hseq & Has & Hrows).
    destruct (IH _ Hp) as (Hc & Hseq' & Hnd & Hids & Hrows').
    split_and!; [done|lia| | |].
    + apply NoDup_app. split_and!; [|intros i Hi Hi'|done].
      * destruct a; cbn; try constructor.
        destruct (add_record d s); [apply NoDup_singleton|constructor].
      * apply Has in Hi. apply Hids in Hi'. lia.
    + intros i [Hi|Hi]%elem_of_app.
      * apply Has in Hi. lia.
      * apply Hids in Hi. lia.
    + intros x Hx. rewrite elem_of_app.
      destruct (Hrows' x Hx) as [Hin|Hin]; [|tauto].
      apply list_elem_of_fmap in Hin as (y & -> & Hy).
      destruct (Hrows y Hy); tauto.
Qed.

(** C8: along every history of the store from its creation, the identifiers
    handed out are pairwise distinct, the records present have distinct
    identifiers, each of which was handed out by a create; the identifier of
    a record that was ever present is never handed out again, whatever
    happens to the record; an update leaves the identifiers as they are and
    gives the records it addresses the new field values, as the columns
    store them, which is as they are given when no measure is NaN or -0.0;
    and the identifier handed out does not depend on the data supplied. *)
Theorem identifiers_unique_never_reused :
  (∀ acts,
     NoDup (run acts empty_store).2
     ∧ NoDup (id <$> rows (run acts empty_store).1)
     ∧ ∀ x, x ∈ rows (run acts empty_store).1 → id x ∈ (run acts empty_store).2)
  ∧ (∀ before after x,
       x ∈ rows (run before empty_store).1 →
       id x ∉ (run after (run before empty_store).1).2)
  ∧ (∀ i d s, id <$> rows (update_record i d s) = id <$> rows s)
  ∧ (∀ i d s r, r ∈ rows (update_record i d s) → id r = i → data r = stored d)
  ∧ (∀ i d s r, Forall exact (measures d) →
       r ∈ rows (update_record i d s) → id r = i → data r = d)
  ∧ (∀ d d' s, assigned (Create d) s = assigned (Create d') s).
Proof.
  split_and!.
  - intros acts.
    destruct (run_consistent acts empty_store consistent_empty)
      as ((_ & _ & Hnd') & _ & Hnd & _ & Hrows).
    split_and!; [done..|]. intros x Hx.
    destruct (Hrows x Hx) as [Hin|Hin]; [|done].
    cbn in Hin. by apply elem_of_nil in Hin.
  - intros before after x Hx Hin.
    destruct (run_consistent before empty_store consistent_empty) as (Hc & _).
    destruct (run_consistent after _ Hc) as (_ & _ & _ & Hids & _).
    apply Hids in Hin. destruct Hc as (_ & Hle & _).
    rewrite Forall_forall in Hle. specialize (Hle x Hx). lia.
  - apply update_record_ids.
  - intros i d s r Hr Hi. unfold update_record in Hr. cbn [rows] in Hr.
    apply list_elem_of_fmap in Hr as (r0 & -> & _).
    by destruct (decide (id r0 = i)).
  - intros i d s r Hd Hr Hi. unfold update_record in Hr. cbn [rows] in Hr.
    apply list_elem_of_fmap in Hr as (r0 & -> & _).
    destruct (decide (id r0 = i)); [|done]. by apply stored_exact.
  - intros d d' s. cbn [assigned]. unfold add_record. by destruct (decide _).
Qed.

(** ** The column presentation mapper *)

Lemma rename_pairs_NoDup : NoDup rename_pairs.*1.
Proof. apply (bool_decide_unpack _). by vm_compute. Qed.

Lemma rename_map_lookup c l :
  rename_map !! c = Some l ↔ (c, l) ∈ rename_pairs.
Proof.
  unfold rename_map. symmetry. apply elem_of_list_to_map, rename_pairs_NoDup.
Qed.

(** C10: renaming touches the labels only.  The rows and their cells are
    returned as they are; each column keeps its position and takes the label
    the map gives it, or keeps its name when the map has none, as the [id]
    column does; the map holds exactly the 21 field names of the table. *)
Theorem rename_columns_changes_labels_only (df : DataFrame) :
  values (rename_columns df) = values df
  ∧ length (values (rename_columns df)) = length (values df)
  ∧ length (columns (rename_columns df)) = length (columns df)
  ∧ (∀ i c, columns df !! i = Some c →
        columns (rename_columns df) !! i = Some (default c (rename_map !! c)))
  ∧ (∀ c l, rename_map !! c = Some l ↔ (c, l) ∈ rename_pairs)
  ∧ length rename_pairs = 21%nat
  ∧ rename_pairs.*1 = tail table_columns
  ∧ rename_map !! "id" = None
  ∧ rename_label rename_map "id" = "id"
  ∧ columns (rename_columns (mk_df table_columns (values df)))
    = ["id"; "S.No"; "Date Of Intervention"; "Yard Location"; "Batch No.";
       "Hold No."; "Material"; "Lots ID"; "SGS Reference ID";
       "Planned Qty (Tons)"; "Loaded Qty (Tons)"; "Balance Qty (Tons)";
       "Dry Colour"; "Wet Colour"; "LOI"; "MgO"; "SiO₂"; "Asbestos";
       "Truck No."; "Remarks"; "Vessel Name"; "SGS Report ID"]%string.
Proof.
  split_and!; try done.
  - unfold rename_columns. cbn [columns]. by rewrite length_fmap.
  - intros i c Hc. unfold rename_columns. cbn [columns].
    by rewrite list_lookup_fmap, Hc.
  - apply rename_map_lookup.
Qed.

(** ** The tabular export renderer *)

Lemma length_page_tables df : length (page_tables df) = num_pages df.
Proof. unfold page_tables. by rewrite length_fmap, length_seq. Qed.

Lemma sub_df_slice df k :
  sub_df df k
  = mk_df (columns df)
      (take max_rows_per_page (drop (k * max_rows_per_page) (values df))).
Proof. unfold sub_df, iloc. do 2 f_equal. lia. Qed.

Lemma lookup_page_tables df k :
  (k < num_pages df)%nat →
  page_tables df !! k
  = Some (mk_table (columns df)
            (take max_rows_per_page (drop (k * max_rows_per_page) (values df)))).
Proof.
  intros Hk. unfold page_tables.
  rewrite list_lookup_fmap, lookup_seq_lt by done.
  cbn [fmap option_fmap option_map plus]. by rewrite sub_df_slice.
Qed.

Lemma concat_chunks {A} (l : list A) (c j m : nat) :
  concat ((λ k, take c (drop (k * c) l)) <$> seq j m)
  = take (m * c) (drop (j * c) l).
Proof.
  revert j. induction m as [|m IH]; intros j; [done|].
  cbn [seq fmap list_fmap concat]. rewrite IH.
  replace (S j * c)%nat with (j * c + c)%nat by lia.
  by rewrite <- drop_drop, take_take_drop.
Qed.

Lemma concat_page_tables df :
  concat (cellText <$> page_tables df) = values df.
Proof.
  unfold page_tables. rewrite <- list_fmap_compose.
  rewrite (list_fmap_ext _ (λ k, take 25 (drop (k * 25) (values df)))
             (seq 0 (num_pages df))).
  2: { intros _ k _. unfold compose. by rewrite sub_df_slice. }
  rewrite concat_chunks. cbn [Nat.mul drop]. apply take_ge.
  unfold num_pages, max_rows_per_page.
  pose proof (Nat.div_mod_eq (length (values df)) 25).
  pose proof (Nat.mod_upper_bound (length (values df)) 25). lia.
Qed.

Lemma last_page_tables df :
  (length (values df) mod 25 = 0)%nat →
  last (page_tables df) = Some (mk_table (columns df) []).
Proof.
  intros Hmod. pose proof (Nat.div_mod_eq (length (values df)) 25) as Hdm.
  rewrite last_lookup, length_page_tables. unfold num_pages.
  rewrite Nat.add_1_r. cbn [Nat.pred].
  rewrite lookup_page_tables by (unfold num_pages; lia).
  unfold max_rows_per_page. by rewrite drop_ge by lia.
Qed.

(** Unless the number of rows is a multiple of 25, no table asked for is
    empty. *)
Lemma page_tables_rows df :
  (length (values df) mod 25 ≠ 0)%nat →
  Forall (λ p, cellText p ≠ []) (page_tables df).
Proof.
  intros Hmod. pose proof (Nat.div_mod_eq (length (values df)) 25) as Hdm.
  apply Forall_lookup. intros k p Hp.
  assert (k < num_pages df)%nat as Hk.
  { rewrite <- length_page_tables. by eapply lookup_lt_Some. }
  rewrite lookup_page_tables in Hp by done. injection Hp as <-.
  cbn [cellText]. unfold num_pages, max_rows_per_page in *.
  intros Hnil%(f_equal length). rewrite length_take, length_drop in Hnil.
  cbn [length] in Hnil. nia.
Qed.

Example draws_rows_raises : raises_without_rows (ax := draws_rows).
Proof. by intros labels. Qed.

Example draws_rows_draws : draws_what_is_given (ax := draws_rows).
Proof. intros [|r body] labels t; [done|]. by intros [= <-]. Qed.

(** The document, for any [ax.table] that raises on a body without rows and
    draws what it is given. *)
Section Renderer.
Context {ax : Axes}.
Hypothesis ax_raises : raises_without_rows.
Hypothesis ax_draws : draws_what_is_given.

(** A document is made when every table asked for is drawn. *)
Lemma df_to_pdf_bytes_is_Some df :
  is_Some (df_to_pdf_bytes df)
  ↔ Forall (λ p, is_Some (ax_table (cellText p) (colLabels p))) (page_tables df).
Proof.
  unfold df_to_pdf_bytes, page_tables.
  by rewrite mapM_is_Some, Forall_fmap.
Qed.

(** A document that is made holds the tables asked for. *)
Lemma df_to_pdf_bytes_Some df pages :
  df_to_pdf_bytes df = Some pages → pages = page_tables df.
Proof.
  unfold df_to_pdf_bytes, page_tables. intros H%mapM_Some_1.
  induction H as [|k p l pages Hp _ IH]; [done|].
  apply ax_draws in Hp as ->. by rewrite fmap_cons, IH.
Qed.

(** Whenever the number of rows is a multiple of 25 the last table asked
    for has no row, and no document is made. *)
Lemma df_to_pdf_bytes_None df :
  (length (values df) mod 25 = 0)%nat → df_to_pdf_bytes df = None.
Proof.
  intros Hmod. pose proof (Nat.div_mod_eq (length (values df)) 25) as Hdm.
  apply mapM_None_2, Exists_exists.
  exists (length (values df) / 25)%nat. split.
  - apply elem_of_seq. unfold num_pages, max_rows_per_page. lia.
  - rewrite sub_df_slice. cbn [values columns]. unfold max_rows_per_page.
    rewrite drop_ge by lia. apply ax_raises.
Qed.

Lemma df_to_pdf_bytes_Some_mod df pages :
  df_to_pdf_bytes df = Some pages → (length (values df) mod 25 ≠ 0)%nat.
Proof. intros Hpages Hmod. by rewrite df_to_pdf_bytes_None in Hpages. Qed.

(** C2: for [n] rows the loop asks for [n // 25 + 1] tables, and when [n]
    is a multiple of 25 the last of them has no data row, as the claim says
    of the pages.  But that table is not drawn: [ax.table] raises on a body
    without rows, so no document is made of 50 rows, and none of no rows.
    A document is only made when [n] is not a multiple of 25; it has
    [n // 25 + 1] pages then and none of them is empty. *)
Theorem export_page_count (df : DataFrame) :
  length (page_tables df) = (length (values df) / 25 + 1)%nat
  ∧ ((length (values df) mod 25 = 0)%nat →
       last (page_tables df) = Some (mk_table (columns df) [])
       ∧ ax_table [] (columns df) = None
       ∧ df_to_pdf_bytes df = None)
  ∧ (length (values df) = 50%nat →
       length (page_tables df) = 3%nat
       ∧ last (page_tables df) = Some (mk_table (columns df) [])
       ∧ df_to_pdf_bytes df = None)
  ∧ (values df = [] →
       page_tables df = [mk_table (columns df) []]
       ∧ df_to_pdf_bytes df = None)
  ∧ (∀ pages, df_to_pdf_bytes df = Some pages →
       length pages = (length (values df) / 25 + 1)%nat
       ∧ (length (values df) mod 25 ≠ 0)%nat
       ∧ Forall (λ p, cellText p ≠ []) pages).
Proof.
  split_and!.
  - apply length_page_tables.
  - intros Hmod.
    split_and!; [by apply last_page_tables|apply ax_raises|
                 by apply df_to_pdf_bytes_None].
  - intros H50. rewrite length_page_tables. unfold num_pages. rewrite H50.
    split_and!; [done| |].
    + apply last_page_tables. by rewrite H50.
    + apply df_to_pdf_bytes_None. by rewrite H50.
  - intros Hnil. split.
    + destruct df as [cols vals]. cbn [values columns] in *. by subst vals.
    + apply df_to_pdf_bytes_None. by rewrite Hnil.
  - intros pages Hpages.
    pose proof (df_to_pdf_bytes_Some_mod df pages Hpages) as Hmod.
    apply df_to_pdf_bytes_Some in Hpages as ->.
    split_and!; [apply length_page_tables|done|by apply page_tables_rows].
Qed.

(** C7: the tables the loop asks for are consecutive runs of at most 25
    rows under the frame's header: table [k] is rows [25 k] to [25 k + 24],
    row [i] is in table [i // 25] at position [i mod 25], and the rows of
    the tables put end to end are the rows of the frame in their order.  A
    document is made when each of these tables is drawn, and has them as
    its pages; but none is made when the number of rows is a multiple of
    25, as the last table has no row then, and no row of the frame appears
    on any page. *)
Theorem export_pages_partition (df : DataFrame) :
  concat (cellText <$> page_tables df) = values df
  ∧ (∀ k p, page_tables df !! k = Some p →
       cellText p = take 25 (drop (25 * k) (values df))
       ∧ (length (cellText p) ≤ 25)%nat
       ∧ colLabels p = columns df)
  ∧ (∀ i r, values df !! i = Some r →
       ∃ p, page_tables df !! (i / 25)%nat = Some p
            ∧ cellText p !! (i mod 25)%nat = Some r)
  ∧ (∀ pages, df_to_pdf_bytes df = Some pages →
       pages = page_tables df
       ∧ concat (cellText <$> pages) = values df
       ∧ (length (values df) mod 25 ≠ 0)%nat)
  ∧ (is_Some (df_to_pdf_bytes df)
     ↔ Forall (λ p, is_Some (ax_table (cellText p) (colLabels p)))
              (page_tables df))
  ∧ ((length (values df) mod 25 = 0)%nat → df_to_pdf_bytes df = None).
Proof.
  split_and!.
  - apply concat_page_tables.
  - intros k p Hp.
    assert (k < num_pages df)%nat as Hk.
    { rewrite <- length_page_tables. by eapply lookup_lt_Some. }
    rewrite lookup_page_tables in Hp by done. injection Hp as <-.
    cbn [cellText colLabels]. unfold max_rows_per_page.
    rewrite (Nat.mul_comm k 25). split_and!; [done| |done].
    rewrite length_take. lia.
  - intros i r Hi. pose proof (lookup_lt_Some _ _ _ Hi) as Hlt.
    pose proof (Nat.div_mod_eq i 25) as Hdm.
    pose proof (Nat.mod_upper_bound i 25) as Hmod.
    assert (i / 25 < num_pages df)%nat as Hk.
    { unfold num_pages, max_rows_per_page.
      pose proof (Nat.Div0.div_le_mono i (length (values df)) 25). lia. }
    eexists. split; [by apply lookup_page_tables|].
    cbn [cellText]. unfold max_rows_per_page.
    rewrite lookup_take_lt by lia. rewrite lookup_drop.
    replace (i / 25 * 25 + i mod 25)%nat with i by lia. done.
  - intros pages Hpages.
    pose proof (df_to_pdf_bytes_Some_mod df pages Hpages) as Hmod.
    apply df_to_pdf_bytes_Some in Hpages as ->.
    split_and!; [done|apply concat_page_tables|done].
  - apply df_to_pdf_bytes_is_Some.
  - apply df_to_pdf_bytes_None.
Qed.

End Renderer.

(** A frame of 50 records as the records page shows them: three tables are
    asked for, the third without a row, and no document is made. *)
Lemma export_page_count_witness :
  let d := sample (Some "B-17") (Some "MAGNESITE") (Some "Vega")
                  (Some "Yard A") (Some 10%float) (Some 5%float) in
  let df := mk_df display_columns (replicate 50 (field_values d)) in
  raises_without_rows (ax := draws_rows)
  ∧ draws_what_is_given (ax := draws_rows)
  ∧ length (values df) = 50%nat
  ∧ length (page_tables df) = 3%nat
  ∧ last (page_tables df) = Some (mk_table display_columns [])
  ∧ df_to_pdf_bytes (ax := draws_rows) df = None.
Proof.
  intros d df. assert (length (values df) = 50%nat) as H50 by done.
  split_and!; [apply draws_rows_raises|apply draws_rows_draws|done|..];
    apply (proj1 (proj2 (proj2
      (export_page_count draws_rows_raises draws_rows_draws df))) H50).
Defined.

(** A frame of 25 records as the records page shows them: the two tables
    asked for hold the 25 rows and none, and no document is made. *)
Lemma export_pages_partition_witness :
  let d := sample (Some "B-17") (Some "MAGNESITE") (Some "Vega")
                  (Some "Yard A") (Some 10%float) (Some 5%float) in
  let df := mk_df display_columns (replicate 25 (field_values d)) in
  raises_without_rows (ax := draws_rows)
  ∧ draws_what_is_given (ax := draws_rows)
  ∧ (length (values df) mod 25 = 0)%nat
  ∧ length ∘ cellText <$> page_tables df = [25; 0]%nat
  ∧ df_to_pdf_bytes (ax := draws_rows) df = None.
Proof.
  intros d df. assert (length (values df) mod 25 = 0)%nat as Hmod by done.
  split_and!; [apply draws_rows_raises|apply draws_rows_draws|done..|].
  exact (proj2 (proj2 (proj2 (proj2 (proj2
    (export_pages_partition draws_rows_raises draws_rows_draws df))))) Hmod).
Defined.

(** ** The report aggregator *)

Lemma renamed_table_columns :
  rename_label rename_map <$> table_columns
  = ["id"; "S.No"; "Date Of Intervention"; "Yard Location"; "Batch No.";
     "Hold No."; "Material"; "Lots ID"; "SGS Reference ID";
     "Planned Qty (Tons)"; "Loaded Qty (Tons)"; "Balance Qty (Tons)";
     "Dry Colour"; "Wet Colour"; "LOI"; "MgO"; "SiO₂"; "Asbestos";
     "Truck No."; "Remarks"; "Vessel Name"; "SGS Report ID"]%string.
Proof. by vm_compute. Qed.

Lemma accumulate_cells m (k : text) (v : real) :
  accumulate m (of_text k) (of_real v)
  = Some (match k with None => m | Some g => group_add m g (skipna v) end).
Proof. by destruct k, v. Qed.

Lemma foldl_accumulate {M} (step : M → row → M)
    (f : option M → list value → option M) (l : list row) (m : M) :
  (∀ m r, f (Some m) (row_values r) = Some (step m r)) →
  foldl f (Some m) (row_values <$> l) = Some (foldl step m l).
Proof.
  intros Hf. revert m. induction l as [|r l IH]; intros m; [done|].
  cbn [fmap list_fmap foldl]. by rewrite Hf, IH.
Qed.

Lemma chart_data_fetch rt s :
  chart_data rt (rename_columns (fetch_records select_all s))
  = Some (fst <$> foldl (add_row rt) ∅ (rows s)).
Proof.
  unfold rename_columns, fetch_records. cbn [columns values].
  rewrite selected_all.
  destruct rt; unfold chart_data, groupby_sum; cbn [columns values];
    rewrite renamed_table_columns.
  - change (column_index "Material" _) with (Some 6%nat).
    change (column_index "Loaded Qty (Tons)" _) with (Some 10%nat).
    cbn [mbind option_bind].
    rewrite (foldl_accumulate (add_row Material_vs_Loaded_Qty)); [done|].
    intros m r.
    cbn [mbind option_bind row_values field_values lookup list_lookup].
    by rewrite accumulate_cells.
  - change (column_index "Yard Location" _) with (Some 3%nat).
    change (column_index "Planned Qty (Tons)" _) with (Some 9%nat).
    cbn [mbind option_bind].
    rewrite (foldl_accumulate (add_row Yard_vs_Planned_Qty)); [done|].
    intros m r.
    cbn [mbind option_bind row_values field_values lookup list_lookup].
    by rewrite accumulate_cells.
Qed.

Lemma foldl_skipna_add {A} (f : A → option float) (l : list A) a :
  foldl skipna_add a (f <$> l) = foldl kahan_add a (omap f l).
Proof.
  revert a. induction l as [|x l IH]; intros a; [done|].
  cbn [fmap list_fmap foldl omap list_omap]. rewrite IH.
  by destruct (f x).
Qed.

(** The pass of one report over the records, group by group. *)
Section Groups.
Context (rt : report_type).

Lemma foldl_add_row_lookup (l : list row) (m : gmap string (float * float)) g :
  foldl (add_row rt) m l !! g
  = match filter (λ r, group_key rt r = Some g) l with
    | [] => m !! g
    | grp => Some (foldl skipna_add (default (0%float, 0%float) (m !! g))
                         ((λ r, skipna (group_measure rt r)) <$> grp))
    end.
Proof.
  revert m. induction l as [|r l IH]; intros m; [done|].
  cbn [foldl]. rewrite IH. unfold add_row.
  destruct (group_key rt r) as [g'|] eqn:Hk.
  - destruct (decide (g' = g)) as [->|Hne].
    + rewrite filter_cons_True by done. unfold group_add.
      rewrite lookup_insert_eq. cbn [default from_option fmap list_fmap foldl].
      by destruct (filter _ l).
    + rewrite filter_cons_False by congruence. unfold group_add.
      by rewrite lookup_insert_ne.
  - by rewrite filter_cons_False by congruence.
Qed.

Lemma foldl_add_row_total (l : list row) g :
  (fst <$> foldl (add_row rt) ∅ l) !! g = group_total rt g l.
Proof.
  rewrite lookup_fmap, foldl_add_row_lookup, lookup_empty.
  unfold group_total, float_sum.
  destruct (filter _ l) as [|r grp]; [done|].
  by rewrite foldl_skipna_add.
Qed.


End Groups.

(** The sum of a group is compensated: adding 1e16, 1 and 1 one after the
    other gives 1e16, the report gives the float next to it. *)
Example float_sum_is_compensated :
  float_sum [1e16; 1; 1]%float = 1.0000000000000002e16%float
  ∧ foldl PrimFloat.add 0%float [1e16; 1; 1]%float = 1e16%float
  ∧ 1e16%float ≠ 1.0000000000000002e16%float.
Proof.
  split_and!; [by vm_compute..|].
  intros H. apply (f_equal (λ x, PrimFloat.eqb x 1e16)) in H.
  by vm_compute in H.
Qed.

(** An infinite measure makes the sum of its group infinite, not NaN. *)
Example float_sum_infinity :
  float_sum [1; infinity; 2]%float = infinity.
Proof. by vm_compute. Qed.



(** * Further properties of the program *)

(** ** More on the search *)

Lemma patternCompare_skip p d s :
  patternCompare p s = true → patternCompare (matchAll :: p) (d :: s) = true.
Proof.
  intros H. rewrite patternCompare_percent. apply orb_true_iff. right.
  apply patternCompare_any_run. by exists [], s.
Qed.

Lemma patternCompare_embedded kw p m rest :
  fold_char <$> m = fold_char <$> kw →
  patternCompare p rest = true →
  patternCompare (kw ++ p) (m ++ rest) = true.
Proof.
  revert m. induction kw as [|c kw IH]; intros m Hm Hp.
  - by apply fmap_nil_inv in Hm as ->.
  - destruct m as [|d m]; [done|].
    rewrite !fmap_cons in Hm. injection Hm as Hd Hm.
    specialize (IH m Hm Hp). cbn [app].
    destruct (decide (c = matchAll)) as [->|Hc].
    + by apply patternCompare_skip.
    + cbn [patternCompare]. rewrite (bool_decide_eq_false_2 _ Hc).
      rewrite IH, andb_true_r. apply orb_true_iff. right.
      by apply bool_decide_eq_true.
Qed.

Lemma like_contains kw x :
  substring_nocase (utf8 kw) (utf8 x) → like x ("%" +:+ kw +:+ "%") = true.
Proof.
  intros (a & m & b & Hx & Hm). unfold like.
  rewrite utf8_keyword_pattern, Hx.
  apply patternCompare_any_run. exists a, (m ++ b). split; [done|].
  apply patternCompare_embedded; [done|]. apply patternCompare_percent_only.
Qed.

(** X1: whatever the keyword, wildcards included, a listed record one of
    whose three searched fields contains the keyword itself, up to ASCII
    letter case, is among the results: the search never misses a literal
    match. *)
Theorem search_finds_every_literal_match (kw : string) (s : store) (r : row) :
  r ∈ rows s →
  text_contains_nocase kw (batchno (data r))
  ∨ text_contains_nocase kw (material (data r))
  ∨ text_contains_nocase kw (vessel_name (data r)) →
  row_values r ∈ values (show_search_filter kw s).
Proof.
  intros Hr H. apply elem_of_search. split; [done|].
  destruct H as [(t & Ht & Hs)|[(t & Ht & Hs)|(t & Ht & Hs)]];
    [left|right; left|right; right]; exists t; (split; [done|]);
    by apply like_contains.
Qed.

Lemma search_finds_every_literal_match_witness :
  let d := sample (Some "50% MgO") (Some "Talc") (Some "Vega")
                  (Some "Yard A") (Some 10%float) (Some 5%float) in
  let s := perform (Create d) empty_store in
  row_values (mk_row 1 d) ∈ values (show_search_filter "50%" s).
Proof.
  intros d s.
  assert (mk_row 1 d ∈ rows s) as Hr by (vm_compute; left).
  apply (search_finds_every_literal_match "50%" s (mk_row 1 d) Hr).
  left. exists "50% MgO"%string. split; [done|].
  by exists (utf8 ""), (utf8 "50%"), (utf8 " MgO").
Defined.

Lemma sqlite3Tolower_percent c :
  sqlite3Tolower c = "%"%char → c = "%"%char.
Proof. destruct c as [[] [] [] [] [] [] [] []]; by vm_compute. Qed.

Lemma sqlite3Tolower_underscore c :
  sqlite3Tolower c = "_"%char → c = "_"%char.
Proof. destruct c as [[] [] [] [] [] [] [] []]; by vm_compute. Qed.

Lemma fold_char_wildcard (w c : uchar) :
  w = matchAll ∨ w = matchOne → fold_char c = w → c = w.
Proof.
  unfold fold_char. intros Hw Hc.
  destruct (c <? 128)%N eqn:Hlt; [|done]. apply N.ltb_lt in Hlt.
  rewrite <- (N_ascii_embedding c) by lia.
  destruct Hw as [->| ->]; apply (f_equal ascii_of_N) in Hc;
    rewrite ascii_N_embedding in Hc.
  - by apply sqlite3Tolower_percent in Hc as ->.
  - by apply sqlite3Tolower_underscore in Hc as ->.
Qed.

Lemma decide_wildcard_fold (w c c' : uchar) :
  w = matchAll ∨ w = matchOne →
  fold_char c = fold_char c' →
  bool_decide (c = w) = bool_decide (c' = w).
Proof.
  intros Hw Hcc.
  assert (fold_char w = w) as Hfw by by destruct Hw as [->| ->].
  apply bool_decide_ext. split; intros ->.
  - apply fold_char_wildcard; [done|]. by rewrite <- Hcc.
  - apply fold_char_wildcard; [done|]. by rewrite Hcc.
Qed.

Lemma patternCompare_fold_case p p' s s' :
  fold_char <$> p = fold_char <$> p' → fold_char <$> s = fold_char <$> s' →
  patternCompare p s = patternCompare p' s'.
Proof.
  revert p' s s'.
  induction p as [|c p IH]; intros [|c' p'] s s' Hp Hs; try done.
  - destruct s, s'; done.
  - rewrite !fmap_cons in Hp. injection Hp as Hc Hp.
    pose proof (decide_wildcard_fold matchAll c c' (or_introl eq_refl) Hc) as Hpc.
    pose proof (decide_wildcard_fold matchOne c c' (or_intror eq_refl) Hc) as Hus.
    destruct (decide (c = matchAll)) as [->|H1].
    + rewrite bool_decide_eq_true_2 in Hpc by done. symmetry in Hpc.
      apply bool_decide_eq_true in Hpc as ->.
      revert s' Hs. induction s as [|d s IHs]; intros [|d' s'] Hs; try done.
      * rewrite !patternCompare_percent. by rewrite (IH p' [] []).
      * rewrite !fmap_cons in Hs. injection Hs as Hd Hs.
        rewrite (patternCompare_percent p), (patternCompare_percent p').
        rewrite (IH p' (d :: s) (d' :: s')), (IHs s'); try done.
        by rewrite !fmap_cons, Hd, Hs.
    + cbn [patternCompare]. rewrite <- Hpc, <- Hus.
      rewrite (bool_decide_eq_false_2 _ H1).
      destruct s as [|d s], s' as [|d' s']; try done.
      rewrite !fmap_cons in Hs. injection Hs as Hd Hs.
      by rewrite Hc, Hd, (IH p' s s').
Qed.

Lemma is_lead_sqlite3Tolower b : is_lead (sqlite3Tolower b) = is_lead b.
Proof. destruct b as [[] [] [] [] [] [] [] []]; by vm_compute. Qed.

Lemma is_continuation_sqlite3Tolower b :
  is_continuation (sqlite3Tolower b) = is_continuation b.
Proof. destruct b as [[] [] [] [] [] [] [] []]; by vm_compute. Qed.

Lemma lead_sqlite3Tolower b :
  is_lead b = true → lead (sqlite3Tolower b) = lead b.
Proof. destruct b as [[] [] [] [] [] [] [] []]; by vm_compute. Qed.

Lemma continuation_sqlite3Tolower c b :
  is_continuation b = true →
  continuation c (sqlite3Tolower b) = continuation c b.
Proof.
  intros Hb. f_equal. revert Hb.
  destruct b as [[] [] [] [] [] [] [] []]; by vm_compute.
Qed.

Lemma fold_char_byte b : fold_char (N_of_ascii b) = N_of_ascii (sqlite3Tolower b).
Proof. destruct b as [[] [] [] [] [] [] [] []]; by vm_compute. Qed.

Lemma fold_char_decoded c : fold_char (decoded c) = decoded c.
Proof.
  unfold fold_char. pose proof (decoded_not_ascii c) as Hc.
  apply N.ltb_ge in Hc. by rewrite Hc.
Qed.

(** Folding the bytes of a text folds its characters. *)
Lemma sqlite3Utf8Read_fold_case cur bytes :
  fold_char <$> sqlite3Utf8Read cur bytes
  = sqlite3Utf8Read cur (fold_case bytes).
Proof.
  revert cur. induction bytes as [|b bytes IH]; intros cur.
  - destruct cur; [|done]. cbn. by rewrite fold_char_decoded.
  - unfold fold_case. rewrite fmap_cons. fold (fold_case bytes).
    cbn [sqlite3Utf8Read].
    rewrite is_lead_sqlite3Tolower, is_continuation_sqlite3Tolower.
    assert (fold_char <$>
              (if is_lead b then sqlite3Utf8Read (Some (lead b)) bytes
               else N_of_ascii b :: sqlite3Utf8Read None bytes)
            = if is_lead b
              then sqlite3Utf8Read (Some (lead (sqlite3Tolower b)))
                     (fold_case bytes)
              else N_of_ascii (sqlite3Tolower b)
                   :: sqlite3Utf8Read None (fold_case bytes)) as Hnext.
    { destruct (is_lead b) eqn:Hb.
      - by rewrite IH, lead_sqlite3Tolower.
      - by rewrite fmap_cons, IH, fold_char_byte. }
    destruct cur as [c|]; [|done].
    destruct (is_continuation b) eqn:Hb.
    + by rewrite IH, continuation_sqlite3Tolower.
    + by rewrite fmap_cons, fold_char_decoded, Hnext.
Qed.

(** X2: two keywords that differ only in the case of ASCII letters give the
    same search result, frame for frame. *)
Theorem search_ignores_keyword_case (kw kw' : string) (s : store) :
  fold_case (chars kw) = fold_case (chars kw') →
  show_search_filter kw s = show_search_filter kw' s.
Proof.
  intros Hkw.
  assert (∀ t, like t ("%" +:+ kw +:+ "%") = like t ("%" +:+ kw' +:+ "%")) as Hl.
  { intros t. unfold like. apply patternCompare_fold_case; [|done].
    unfold utf8. rewrite !sqlite3Utf8Read_fold_case. f_equal.
    rewrite !chars_append. unfold fold_case in *. by rewrite !fmap_app, Hkw. }
  unfold show_search_filter, fetch_records, selected, search_query. f_equal. f_equal.
  apply list_filter_iff. intros r. cbn [where_clause]. unfold sql_like.
  by destruct (batchno (data r)), (material (data r)), (vessel_name (data r));
    rewrite ?Hl.
Qed.

Lemma search_ignores_keyword_case_witness :
  let d := sample (Some "B-17") (Some "MAGNESITE") (Some "Vega")
                  (Some "Yard A") (Some 10%float) (Some 5%float) in
  let s := perform (Create d) empty_store in
  show_search_filter "MagNes" s = show_search_filter "magnes" s.
Proof.
  intros d s. apply (search_ignores_keyword_case "MagNes" "magnes" s).
  by vm_compute.
Defined.

Lemma filter_Forall_id {A} (P : A → Prop) `{!∀ x, Decision (P x)} (l : list A) :
  Forall P l → filter P l = l.
Proof.
  induction 1 as [|x l Hx _ IH]; [done|].
  by rewrite filter_cons_True, IH.
Qed.

Lemma form_rows_perform (a : form_action) (s : store) :
  Forall (λ r, ∃ f, data r = stored (form_data f)) (rows s) →
  Forall (λ r, ∃ f, data r = stored (form_data f)) (rows (perform (action_of a) s)).
Proof.
  intros Hs. destruct a as [f|i f|i]; cbn [action_of perform].
  - unfold add_record. destruct (decide _); [|done]. cbn [rows].
    apply Forall_app. split; [done|]. constructor; [by exists f | constructor].
  - unfold update_record. cbn [rows]. apply Forall_fmap.
    eapply Forall_impl; [done|]. intros r Hr. cbn.
    destruct (decide (id r = i)); [by exists f | done].
  - unfold delete_record. cbn [rows].
    rewrite Forall_forall in Hs. apply Forall_forall.
    intros r [_ Hr]%list_elem_of_filter. by apply Hs.
Qed.

Lemma form_rows_run (acts : list form_action) (s : store) :
  Forall (λ r, ∃ f, data r = stored (form_data f)) (rows s) →
  Forall (λ r, ∃ f, data r = stored (form_data f)) (rows (run (action_of <$> acts) s).1).
Proof.
  revert s. induction acts as [|a acts IH]; intros s Hs; [done|].
  rewrite fmap_cons, run_cons. cbn [fst]. by apply IH, form_rows_perform.
Qed.

(** X3: as long as the table is only filled through the forms, which never
    supply NULL, the empty keyword finds every record: the search frame is
    the frame of the full listing. *)
Theorem empty_search_lists_all_form_records (acts : list form_action) :
  let s := (run (action_of <$> acts) empty_store).1 in
  show_search_filter "" s = fetch_records select_all s.
Proof.
  intros s. unfold show_search_filter, fetch_records. f_equal. f_equal.
  rewrite selected_all. unfold selected. apply filter_Forall_id.
  eapply Forall_impl; [apply (form_rows_run acts empty_store); constructor|].
  intros r [f Hf]. cbn beta. unfold search_query. cbn [where_clause].
  rewrite where_holds_or3. left. apply sql_like_true.
  exists (Form.batchno f). split; [by rewrite Hf|apply like_empty_keyword].
Qed.

(** ** More on the store *)

Lemma perform_ids (a : action) (s : store) :
  consistent s →
  ((assigned a s = [] ∧ sqlite_sequence (perform a s) = sqlite_sequence s)
   ∨ (assigned a s = [sqlite_sequence s + 1]
      ∧ sqlite_sequence (perform a s) = sqlite_sequence s + 1))
  ∧ id <$> rows (perform a s) `sublist_of` (id <$> rows s) ++ assigned a s.
Proof.
  intros Hs. pose proof (consistent_last_rowid s Hs) as Hl.
  destruct a as [d|i d|i]; cbn [perform assigned].
  - destruct (add_record d s) as [s'|] eqn:Hadd.
    + destruct (consistent_add_record d s s' Hs Hadd) as (_ & Hseq & Hrows).
      rewrite Hl, Hrows, fmap_app. split; [by right|done].
    + split; [by left|]. by rewrite app_nil_r.
  - split; [by left|]. by rewrite update_record_ids, app_nil_r.
  - split; [by left|]. rewrite app_nil_r. cbn [delete_record rows].
    apply fmap_sublist, sublist_filter.
Qed.

Lemma run_ids (acts : list action) (s : store) :
  consistent s →
  (run acts s).2
  = seqZ (sqlite_sequence s + 1) (Z.of_nat (length (run acts s).2))
  ∧ sqlite_sequence (run acts s).1
    = sqlite_sequence s + Z.of_nat (length (run acts s).2)
  ∧ id <$> rows (run acts s).1 `sublist_of` (id <$> rows s) ++ (run acts s).2.
Proof.
  revert s. induction acts as [|a acts IH]; intros s Hs.
  - cbn. split_and!; [done|lia|by rewrite app_nil_r].
  - rewrite run_cons. cbn [fst snd].
    destruct (consistent_perform a s Hs) as (Hp & _).
    destruct (IH _ Hp) as (Hids & Hseq & Hsub).
    destruct (perform_ids a s Hs) as (Has & Hsub').
    assert (id <$> rows (run acts (perform a s)).1
            `sublist_of` (id <$> rows s) ++ assigned a s ++ (run acts (perform a s)).2)
      as Hsub''.
    { etrans; [done|]. rewrite app_assoc. by apply sublist_app. }
    destruct Has as [[Ha Hq]|[Ha Hq]]; rewrite Ha, Hq in *;
      cbn [app length] in *.
    + done.
    + split_and!; [|lia|done].
      rewrite Nat2Z.inj_succ, seqZ_cons by lia. f_equal.
      rewrite Z.pred_succ. rewrite Hids at 1. by f_equal.
Qed.

(** X4: from the empty table on, the k-th record created gets the
    identifier k whatever was updated or deleted in between, the counter
    holds the number of records created so far, and the listing shows the
    surviving records in the order of their creation. *)
Theorem identifiers_count_creations (acts : list action) :
  (run acts empty_store).2
  = seqZ 1 (Z.of_nat (length (run acts empty_store).2))
  ∧ sqlite_sequence (run acts empty_store).1
    = Z.of_nat (length (run acts empty_store).2)
  ∧ id <$> rows (run acts empty_store).1
    `sublist_of` seqZ 1 (Z.of_nat (length (run acts empty_store).2)).
Proof.
  destruct (run_ids acts empty_store consistent_empty) as (Hids & Hseq & Hsub).
  cbn [empty_store rows sqlite_sequence fmap list_fmap app] in *.
  change (0 + 1) with 1 in Hids. rewrite Z.add_0_l in Hseq.
  split_and!; [done..|]. by rewrite <- Hids.
Qed.

Lemma update_rows_at (l : list row) (k : nat) (r : row) (d : fields) :
  NoDup (id <$> l) → l !! k = Some r →
  (λ x, if decide (id x = id r) then mk_row (id x) d else x) <$> l
  = <[k := mk_row (id r) d]> l.
Proof.
  intros Hnd Hk. apply list_eq. intros j. rewrite list_lookup_fmap.
  destruct (decide (k = j)) as [<-|Hne].
  - rewrite list_lookup_insert_eq by by eapply lookup_lt_Some.
    rewrite Hk. cbn. by rewrite decide_True.
  - rewrite list_lookup_insert_ne by done.
    destruct (l !! j) as [x|] eqn:Hj; [|done]. cbn.
    rewrite decide_False; [done|]. intros Hid. apply Hne.
    apply (NoDup_lookup (id <$> l) k j (id r)); [done|..];
      rewrite list_lookup_fmap; [by rewrite Hk | rewrite Hj; cbn; by rewrite Hid].
Qed.

Lemma delete_rows_at (l : list row) (k : nat) (r : row) :
  NoDup (id <$> l) → l !! k = Some r →
  filter (λ x, id x ≠ id r) l = delete k l.
Proof.
  revert k. induction l as [|x l IH]; intros k Hnd Hk; [done|].
  rewrite fmap_cons in Hnd. apply NoDup_cons in Hnd as [Hx Hnd].
  destruct k as [|k]; cbn in Hk.
  - injection Hk as ->. rewrite filter_cons_False by (intros ?; done).
    cbn [delete list_delete]. apply delete_rows_absent.
    intros y Hy Heq. apply Hx. rewrite <- Heq. by apply list_elem_of_fmap_2.
  - rewrite filter_cons_True.
    + cbn [delete list_delete]. f_equal. by apply IH.
    + intros Heq. apply Hx. rewrite Heq.
      apply list_elem_of_fmap_2. by eapply list_elem_of_lookup_2.
Qed.

(** X5: a second update of the same identifier overwrites the first: only
    the last tuple written is kept. *)
Theorem update_last_write_wins (i : Z) (d1 d2 : fields) (s : store) :
  update_record i d2 (update_record i d1 s) = update_record i d2 s.
Proof.
  unfold update_record. cbn [rows sqlite_sequence]. f_equal.
  rewrite <- list_fmap_compose. apply list_fmap_ext. intros _ r _. cbn.
  destruct (decide (id r = i)) as [Hi|Hi]; cbn.
  - by rewrite decide_True.
  - by rewrite decide_False.
Qed.

(** X6: statements that address different identifiers commute: an update
    with a delete or with another update; two deletes commute always. *)
Theorem statements_on_other_ids_commute (i j : Z) (d e : fields) (s : store) :
  i ≠ j →
  delete_record j (update_record i d s) = update_record i d (delete_record j s)
  ∧ update_record j e (update_record i d s)
    = update_record i d (update_record j e s)
  ∧ delete_record j (delete_record i s) = delete_record i (delete_record j s).
Proof.
  intros Hij. unfold delete_record, update_record. cbn [rows sqlite_sequence].
  split_and!; f_equal.
  - induction (rows s) as [|r l IH]; [done|].
    rewrite fmap_cons, !filter_cons. cbn beta.
    destruct (decide (id r = i)) as [Hi|Hi]; cbn [id].
    + rewrite !decide_True by congruence. rewrite fmap_cons.
      by rewrite decide_True, IH.
    + destruct (decide (id r ≠ j)); [|done]. rewrite fmap_cons.
      by rewrite decide_False, IH.
  - rewrite <- !list_fmap_compose. apply list_fmap_ext. intros _ r _. cbn.
    destruct (decide (id r = i)) as [Hi|Hi], (decide (id r = j)) as [Hj|Hj];
      cbn [id]; repeat case_decide; first [done | congruence].
  - rewrite !list_filter_filter. apply list_filter_iff. tauto.
Qed.

Lemma statements_on_other_ids_commute_witness :
  let d := sample (Some "B-17") (Some "MAGNESITE") (Some "Vega")
                  (Some "Yard A") (Some 10%float) (Some 5%float) in
  let e := sample (Some "B-18") (Some "Talc") (Some "Orion")
                  (Some "Yard B") (Some 7%float) (Some 3%float) in
  let s := perform (Create e) (perform (Create d) empty_store) in
  delete_record 2 (update_record 1 e s) = update_record 1 e (delete_record 2 s).
Proof.
  intros d e s. assert (1 ≠ 2) as Hne by done.
  exact (proj1 (statements_on_other_ids_commute 1 2 e d s Hne)).
Defined.

(** X7: after a delete no record has the identifier, so reading it back
    from any query finds nothing (the [iloc[0]] of the source raises), and
    every other record is listed as before; deleting again changes
    nothing. *)
Theorem deleted_record_is_gone (i : Z) (q : query) (s : store) :
  record_by_id i (fetch_records q (delete_record i s)) = None
  ∧ (∀ r, r ∈ rows (delete_record i s) ↔ r ∈ rows s ∧ id r ≠ i)
  ∧ delete_record i (delete_record i s) = delete_record i s.
Proof.
  split_and!.
  - rewrite record_by_id_fetch. unfold selected, delete_record. cbn [rows].
    rewrite !list_filter_filter.
    replace (filter _ (rows s)) with (@nil row); [done|].
    symmetry. induction (rows s) as [|r l IH]; [done|].
    rewrite filter_cons_False by tauto. done.
  - intros r. unfold delete_record. cbn [rows].
    rewrite list_elem_of_filter. tauto.
  - unfold delete_record. cbn [rows sqlite_sequence]. f_equal.
    rewrite list_filter_filter. apply list_filter_iff. tauto.
Qed.

(** X8: a record that has just been created is the last of the listing,
    with the cells the columns store for it, which are the values given
    when no measure is NaN or -0.0; deleting it again gives back the rows there were, but the counter does
    not go back, which is why its identifier is not handed out again. *)
Theorem create_then_delete_restores_rows (d : fields) (s s' : store) :
  add_record d s = Some s' →
  values (fetch_records select_all s')
  = values (fetch_records select_all s)
    ++ [INTEGER (last_rowid s + 1) :: field_values (stored d)]
  ∧ rows (delete_record (last_rowid s + 1) s') = rows s
  ∧ sqlite_sequence (delete_record (last_rowid s + 1) s') = last_rowid s + 1
  ∧ last_rowid (delete_record (last_rowid s + 1) s') = last_rowid s + 1
  ∧ (Forall exact (measures d) →
     values (fetch_records select_all s')
     = values (fetch_records select_all s)
       ++ [INTEGER (last_rowid s + 1) :: field_values d]).
Proof.
  unfold add_record. destruct (decide _) as [Hlt|]; [|done]. intros [= <-].
  assert (filter (λ r, id r ≠ last_rowid s + 1)
            (rows s ++ [mk_row (last_rowid s + 1) (stored d)]) = rows s) as Hdel.
  { rewrite filter_app, filter_cons_False by (intros ?; done).
    rewrite filter_nil, app_nil_r. apply delete_rows_absent.
    intros r Hr. apply largest_rowid_ge in Hr. unfold last_rowid. lia. }
  split_and!.
  - unfold fetch_records. cbn [values]. rewrite !selected_all. cbn [rows].
    by rewrite fmap_app.
  - unfold delete_record. by cbn [rows].
  - done.
  - unfold last_rowid at 1. unfold delete_record. cbn [rows sqlite_sequence].
    rewrite Hdel. unfold last_rowid. lia.
  - intros Hd. unfold fetch_records. cbn [values].
    rewrite !selected_all. cbn [rows]. by rewrite fmap_app, stored_exact.
Qed.

Lemma create_then_delete_restores_rows_witness :
  let d := sample (Some "B-17") (Some "MAGNESITE") (Some "Vega")
                  (Some "Yard A") (Some 10%float) (Some 5%float) in
  ∃ s', add_record d empty_store = Some s'
        ∧ rows (delete_record 1 s') = []
        ∧ sqlite_sequence (delete_record 1 s') = 1.
Proof.
  intros d. eexists. split; [reflexivity|].
  destruct (create_then_delete_restores_rows d empty_store _ eq_refl)
    as (_ & Hrows & Hseq & _).
  by split.
Defined.

(** ** The records page and the search page *)

Lemma tolist_id_fetch q s :
  tolist "id" (fetch_records q s) = Some (id <$> selected q s).
Proof.
  unfold tolist, fetch_records. cbn [columns values].
  change (column_index "id" table_columns) with (Some 0%nat).
  cbn [mbind option_bind].
  induction (selected q s) as [|r l IH]; [done|].
  rewrite !fmap_cons. cbn [mapM]. rewrite IH. done.
Qed.

Lemma drop_id_fetch q s :
  drop_columns "id" (rename_columns (fetch_records q s))
  = Some (mk_df display_columns (field_values ∘ data <$> selected q s)).
Proof.
  unfold drop_columns, rename_columns, fetch_records. cbn [columns values].
  rewrite renamed_table_columns. rewrite decide_True by left.
  f_equal. f_equal.
  rewrite <- list_fmap_compose. by apply list_fmap_ext.
Qed.

Lemma shifted_index n : (λ i, i + 1) <$> seqZ 0 n = seqZ 1 n.
Proof.
  replace (seqZ 1 n) with (Z.add 1 <$> seqZ 0 n) by by rewrite fmap_add_seqZ.
  apply list_fmap_ext. intros; lia.
Qed.

Lemma display_of_fetch q s :
  display_of (fetch_records q s)
  = Some (mk_display
            (id <$> selected q s)
            (mk_df display_columns (field_values ∘ data <$> selected q s))
            (seqZ 1 (Z.of_nat (length (selected q s))))).
Proof.
  unfold display_of. rewrite tolist_id_fetch, drop_id_fetch.
  cbn [mbind option_bind values]. by rewrite shifted_index, length_fmap.
Qed.

Lemma records_display_rows s :
  rows s ≠ [] →
  records_display s
  = Some (mk_display
            (id <$> rows s)
            (mk_df display_columns (field_values ∘ data <$> rows s))
            (seqZ 1 (Z.of_nat (length (rows s))))).
Proof.
  intros Hne. unfold records_display. cbn zeta. rewrite display_of_fetch.
  unfold df_empty, fetch_records. cbn [columns values table_columns].
  rewrite selected_all. by destruct (rows s).
Qed.

Section Pages.
Context {ax : Axes}.
Hypothesis ax_raises : raises_without_rows.
Hypothesis ax_draws : draws_what_is_given.

Lemma page_of_fetch q s :
  page_of (fetch_records q s)
  = match selected q s with
    | [] => notice
    | l =>
        let df_display := mk_df display_columns (field_values ∘ data <$> l) in
        shown (mk_display (id <$> l) df_display (seqZ 1 (Z.of_nat (length l))))
              (df_to_pdf_bytes df_display)
    end.
Proof.
  unfold page_of. rewrite display_of_fetch.
  unfold df_empty, fetch_records. cbn [columns values table_columns df_display].
  by destruct (selected q s).
Qed.

(** X9: what the records page and the search page show for a query.  With
    no matching record it is the notice and nothing else; otherwise the
    identifiers are those of the matching records in listing order, the
    frame shown has the 21 labelled columns without [id] and one row of
    field values per record, the row numbers run from 1 to the number of
    records, and building this display never fails.  The document offered
    below it is the document of the frame shown: it is made of the tables
    of that frame if they are drawn, and making it raises whenever the
    number of records is a multiple of 25. *)
Theorem pages_show_the_records (q : query) (s : store) :
  page_of (fetch_records q s)
  = match selected q s with
    | [] => notice
    | l =>
        let df_display := mk_df display_columns (field_values ∘ data <$> l) in
        shown (mk_display (id <$> l) df_display (seqZ 1 (Z.of_nat (length l))))
              (df_to_pdf_bytes df_display)
    end
  ∧ (∀ d pdf_bytes, page_of (fetch_records q s) = shown d pdf_bytes →
       ((length (selected q s) mod 25 = 0)%nat → pdf_bytes = None)
       ∧ (∀ pages, pdf_bytes = Some pages → pages = page_tables (df_display d)))
  ∧ show_all_records s = page_of (fetch_records select_all s)
  ∧ (∀ kw, search_results kw s = page_of (fetch_records (search_query kw) s)).
Proof.
  split_and!; [apply page_of_fetch| |done..].
  intros d pdf_bytes. rewrite page_of_fetch.
  destruct (selected q s) as [|r l] eqn:Hsel; [done|]. rewrite <- Hsel.
  cbn zeta. intros [= <- <-]. cbn [df_display]. split.
  - intros Hmod. apply df_to_pdf_bytes_None; [done|].
    cbn [values]. by rewrite length_fmap.
  - intros pages. by apply df_to_pdf_bytes_Some.
Qed.

End Pages.

Lemma pages_show_the_records_witness :
  let d := sample (Some "B-17") (Some "MAGNESITE") (Some "Vega")
                  (Some "Yard A") (Some 10%float) (Some 5%float) in
  let s := perform (Create d) empty_store in
  raises_without_rows (ax := draws_rows)
  ∧ draws_what_is_given (ax := draws_rows)
  ∧ search_results (ax := draws_rows) "mag" s
    = shown (mk_display [1] (mk_df display_columns [field_values d]) [1])
            (Some [mk_table display_columns [field_values d]])
  ∧ search_results (ax := draws_rows) "talc" s = notice.
Proof.
  intros d s.
  split_and!; [apply draws_rows_raises|apply draws_rows_draws|..].
  - rewrite (proj2 (proj2 (proj2
      (pages_show_the_records draws_rows_raises draws_rows_draws
         (search_query "mag") s))) "mag"%string).
    by rewrite (proj1 (pages_show_the_records draws_rows_raises
                         draws_rows_draws (search_query "mag") s)).
  - by vm_compute.
Defined.

Lemma show_all_records_rows {ax : Axes} s :
  rows s ≠ [] →
  show_all_records s
  = shown (mk_display
             (id <$> rows s)
             (mk_df display_columns (field_values ∘ data <$> rows s))
             (seqZ 1 (Z.of_nat (length (rows s)))))
          (df_to_pdf_bytes
             (mk_df display_columns (field_values ∘ data <$> rows s))).
Proof.
  intros Hne. unfold show_all_records, page_of. rewrite display_of_fetch.
  unfold df_empty, fetch_records. cbn [columns values table_columns df_display].
  rewrite selected_all. by destruct (rows s).
Qed.

Lemma getitem_lookup {A} (l : list A) (k : nat) (x : A) :
  l !! k = Some x → getitem l (Z.of_nat k) = Some x.
Proof.
  intros Hk. pose proof (lookup_lt_Some _ _ _ Hk). unfold getitem.
  rewrite decide_True by lia. by rewrite Nat2Z.id.
Qed.

(** X10: when there are records, the records page shows them, and the row
    numbers offered by its select box are exactly 1 to the number of
    records; for each of them [ids[selected_idx - 1]] is the identifier of
    the record listed at that position, whose field values are the row
    shown under that number: the index is never negative, so it never
    counts from the end, and never out of range. *)
Theorem row_number_selects_its_record {ax : Axes} (s : store) :
  rows s ≠ [] →
  ∃ d pdf_bytes,
    show_all_records s = shown d pdf_bytes
    ∧ records_display s = Some d
    ∧ index d = seqZ 1 (Z.of_nat (length (rows s)))
    ∧ (∀ selected_idx,
         selected_idx ∈ index d ↔ 1 ≤ selected_idx ≤ Z.of_nat (length (rows s)))
    ∧ 1 ∈ index d
    ∧ (∀ selected_idx, selected_idx ∈ index d →
         ∃ r, rows s !! Z.to_nat (selected_idx - 1) = Some r
              ∧ selected_id d selected_idx = Some (id r)
              ∧ values (df_display d) !! Z.to_nat (selected_idx - 1)
                = Some (field_values (data r))).
Proof.
  intros Hne. eexists _, _.
  split; [by apply show_all_records_rows|].
  split; [by apply records_display_rows|].
  cbn [index ids df_display values].
  assert (1 ≤ Z.of_nat (length (rows s))) as Hlen.
  { destruct (rows s); [done|]. cbn [length]. lia. }
  split_and!; [done| | |].
  - intros i. rewrite elem_of_seqZ. lia.
  - apply elem_of_seqZ. lia.
  - intros selected_idx Hidx%elem_of_seqZ.
    destruct (lookup_lt_is_Some_2 (rows s) (Z.to_nat (selected_idx - 1)))
      as [r Hr]; [lia|].
    exists r. split_and!; [done| |].
    + unfold selected_id. cbn [ids].
      rewrite <- (Z2Nat.id (selected_idx - 1)) by lia.
      apply getitem_lookup. by rewrite list_lookup_fmap, Hr.
    + by rewrite list_lookup_fmap, Hr.
Qed.

Lemma row_number_selects_its_record_witness :
  let d := sample (Some "B-17") (Some "MAGNESITE") (Some "Vega")
                  (Some "Yard A") (Some 10%float) (Some 5%float) in
  let e := sample (Some "B-18") (Some "Talc") (Some "Orion")
                  (Some "Yard B") (Some 7%float) (Some 3%float) in
  let s := delete_record 1 (perform (Create e) (perform (Create d) empty_store)) in
  ∃ v pdf_bytes, show_all_records (ax := draws_rows) s = shown v pdf_bytes
       ∧ index v = [1]
       ∧ selected_id v 1 = Some 2.
Proof.
  intros d e s.
  assert (rows s ≠ []) as Hne by done.
  destruct (row_number_selects_its_record (ax := draws_rows) s Hne)
    as (v & pdf_bytes & Hv & _ & Hi & _ & H1 & Hsel).
  exists v, pdf_bytes. split_and!; [done..|].
  destruct (Hsel 1 H1) as (r & Hr & -> & _).
  vm_compute in Hr. by injection Hr as <-.
Defined.

Lemma head_filter_id_at (l : list row) (k : nat) (r : row) :
  NoDup (id <$> l) → l !! k = Some r →
  head (filter (λ x, id x = id r) l) = Some r.
Proof.
  revert k. induction l as [|x l IH]; intros k Hnd Hk; [done|].
  rewrite fmap_cons in Hnd. apply NoDup_cons in Hnd as [Hx Hnd].
  destruct k as [|k]; cbn in Hk.
  - injection Hk as ->. by rewrite filter_cons_True.
  - rewrite filter_cons_False; [by eapply IH|].
    intros Heq. apply Hx. rewrite Heq.
    apply list_elem_of_fmap_2. by eapply list_elem_of_lookup_2.
Qed.

(** X11: when no two records share an identifier, as in every store the
    program can build, row number k + 1 of the records page addresses the
    record listed at position k and no other: the update form is filled from
    it, Save Changes replaces its fields by what the columns store of the
    form (the values of the form themselves when no measure is NaN or -0.0)
    and leaves every other row and the order as they are, and Delete Record
    removes that one row. *)
Theorem buttons_act_on_the_selected_row
    (s : store) (k : nat) (r : row) (f : Form.t) :
  NoDup (id <$> rows s) →
  rows s !! k = Some r →
  form_record (Z.of_nat k + 1) s = Some (row_values r)
  ∧ save_changes (Z.of_nat k + 1) f s
    = Some (mk_store (<[k := mk_row (id r) (stored (form_data f))]> (rows s))
                     (sqlite_sequence s))
  ∧ delete_clicked (Z.of_nat k + 1) s
    = Some (mk_store (delete k (rows s)) (sqlite_sequence s))
  ∧ length (delete k (rows s)) = pred (length (rows s))
  ∧ (Forall exact (measures (form_data f)) →
     save_changes (Z.of_nat k + 1) f s
     = Some (mk_store (<[k := mk_row (id r) (form_data f)]> (rows s))
                      (sqlite_sequence s))).
Proof.
  intros Hnd Hk.
  assert (rows s ≠ []) as Hne by (intros Hnil; by rewrite Hnil in Hk).
  assert (getitem (id <$> rows s) (Z.of_nat k + 1 - 1) = Some (id r)) as Hsel.
  { replace (Z.of_nat k + 1 - 1) with (Z.of_nat k) by lia.
    apply getitem_lookup. by rewrite list_lookup_fmap, Hk. }
  unfold form_record, save_changes, delete_clicked.
  rewrite (records_display_rows s Hne). cbn [mbind option_bind].
  unfold selected_id. cbn [ids].
  rewrite Hsel. cbn [mbind option_bind]. split_and!.
  - rewrite record_by_id_fetch, selected_all.
    by rewrite (head_filter_id_at _ k).
  - unfold update_record. by rewrite (update_rows_at _ k).
  - unfold delete_record. by rewrite (delete_rows_at _ k).
  - rewrite length_delete by done. lia.
  - intros Hf. unfold update_record.
    by rewrite (update_rows_at _ k r), stored_exact.
Qed.

Lemma buttons_act_on_the_selected_row_witness :
  let d := sample (Some "B-17") (Some "MAGNESITE") (Some "Vega")
                  (Some "Yard A") (Some 10%float) (Some 5%float) in
  let e := sample (Some "B-18") (Some "Talc") (Some "Orion")
                  (Some "Yard B") (Some 7%float) (Some 3%float) in
  let s := perform (Create e) (perform (Create d) empty_store) in
  let f := Form.mk "1" (mk_date 2025 1 31) "Yard A" "B-17" "H2" "MAGNESITE" "L-7"
             "SGS-11" 10 5 5 "grey" "dark" 1.5 46 0.5 "NIL" "TRK 9" "" "Vega"
             "R-3" in
  delete_clicked 2 s = Some (mk_store [mk_row 1 d] 2).
Proof.
  intros d e s f.
  assert (NoDup (id <$> rows s)) as Hnd
    by (apply (bool_decide_unpack _); by vm_compute).
  assert (rows s !! 1%nat = Some (mk_row 2 e)) as Hk by done.
  exact (proj1 (proj2 (proj2
    (buttons_act_on_the_selected_row s 1 (mk_row 2 e) f Hnd Hk)))).
Defined.

(** ** More on the export *)

Lemma page_tables_sizes df :
  length ∘ cellText <$> page_tables df
  = replicate (length (values df) / 25) 25%nat
    ++ [(length (values df) mod 25)%nat].
Proof.
  pose proof (Nat.div_mod_eq (length (values df)) 25) as Hdm.
  pose proof (Nat.mod_upper_bound (length (values df)) 25) as Hmod.
  apply list_eq. intros k. rewrite list_lookup_fmap.
  destruct (decide (k < num_pages df)%nat) as [Hk|Hk].
  - rewrite lookup_page_tables by done.
    cbn [fmap option_fmap option_map compose cellText].
    rewrite length_take, length_drop. unfold max_rows_per_page.
    unfold num_pages, max_rows_per_page in Hk.
    destruct (decide (k < length (values df) / 25)%nat) as [Hlt|Hge].
    + rewrite lookup_app_l by by rewrite length_replicate.
      rewrite lookup_replicate_2 by done. f_equal. nia.
    + assert (k = (length (values df) / 25)%nat) as -> by lia.
      rewrite lookup_app_r by by rewrite length_replicate.
      rewrite length_replicate, Nat.sub_diag. cbn [lookup list_lookup].
      f_equal. lia.
  - rewrite (lookup_ge_None_2 (page_tables df))
      by (rewrite length_page_tables; lia).
    symmetry. apply lookup_ge_None_2.
    rewrite length_app, length_replicate. cbn [length].
    unfold num_pages, max_rows_per_page in Hk. lia.
Qed.

Lemma colLabels_page_tables df :
  Forall (λ p, colLabels p = columns df) (page_tables df).
Proof.
  apply Forall_lookup. intros k p Hp.
  assert (k < num_pages df)%nat as Hk.
  { rewrite <- length_page_tables. by eapply lookup_lt_Some. }
  rewrite lookup_page_tables in Hp by done. by injection Hp as <-.
Qed.

Section Document.
Context {ax : Axes}.
Hypothesis ax_raises : raises_without_rows.
Hypothesis ax_draws : draws_what_is_given.

(** X12: in a document that is made, every page but the last holds exactly
    25 rows and the last holds the remaining [n mod 25], which is at least
    one: a document never has an empty page. *)
Theorem export_pages_are_full_but_the_last (df : DataFrame) (pages : list table) :
  df_to_pdf_bytes df = Some pages →
  length ∘ cellText <$> pages
  = replicate (length (values df) / 25) 25%nat
    ++ [(length (values df) mod 25)%nat]
  ∧ (0 < length (values df) mod 25)%nat
  ∧ Forall (λ p, (1 ≤ length (cellText p) ≤ 25)%nat) pages.
Proof.
  intros Hpages.
  pose proof (df_to_pdf_bytes_Some_mod ax_raises df pages Hpages) as Hmod.
  apply (df_to_pdf_bytes_Some ax_draws) in Hpages as ->.
  pose proof (page_tables_rows df Hmod) as Hne.
  split_and!; [apply page_tables_sizes|lia|].
  apply Forall_lookup. intros k p Hp.
  rewrite Forall_lookup in Hne. specialize (Hne k p Hp).
  assert (k < num_pages df)%nat as Hk.
  { rewrite <- length_page_tables. by eapply lookup_lt_Some. }
  rewrite lookup_page_tables in Hp by done. injection Hp as <-.
  cbn [cellText] in *. unfold max_rows_per_page in *.
  destruct (take 25 _) as [|r l] eqn:Ht; [done|].
  apply (f_equal length) in Ht. rewrite length_take in Ht.
  cbn [length] in *. lia.
Qed.

(** X13: the document either page offers for download, when one is made.
    Its pages put end to end are the field values of the records shown, one
    row per record in listing order; every page carries the 21 labels, none
    of them [id], so no identifier is exported; no page is empty, and the
    document starts with the first record shown; the number of records is
    not a multiple of 25. *)
Theorem exported_document_holds_the_shown_records
    (q : query) (s : store) (d : display) (pages : list table) :
  page_of (fetch_records q s) = shown d (Some pages) →
  concat (cellText <$> pages) = field_values ∘ data <$> selected q s
  ∧ concat (cellText <$> pages) = values (df_display d)
  ∧ Forall (λ p, colLabels p = display_columns ∧ "id" ∉ colLabels p) pages
  ∧ length pages = (length (selected q s) / 25 + 1)%nat
  ∧ (length (selected q s) mod 25 ≠ 0)%nat
  ∧ Forall (λ p, cellText p ≠ []) pages
  ∧ ∃ r p, head (selected q s) = Some r
           ∧ head pages = Some p
           ∧ head (cellText p) = Some (field_values (data r)).
Proof.
  rewrite page_of_fetch.
  destruct (selected q s) as [|r l] eqn:Hsel; [done|].
  set (df := mk_df display_columns (field_values ∘ data <$> r :: l)).
  assert (length (values df) = length (r :: l)) as Hlen
    by (unfold df; cbn [values]; by rewrite length_fmap).
  cbn zeta. fold df. intros Hshown.
  assert (d = mk_display (id <$> r :: l) df (seqZ 1 (Z.of_nat (length (r :: l))))
          ∧ df_to_pdf_bytes df = Some pages) as [-> Hpages].
  { by injection Hshown as <- <-. }
  cbn [df_display].
  pose proof (df_to_pdf_bytes_Some_mod ax_raises df pages Hpages) as Hmod.
  apply (df_to_pdf_bytes_Some ax_draws) in Hpages as ->.
  split_and!.
  - by rewrite concat_page_tables.
  - by rewrite concat_page_tables.
  - eapply Forall_impl; [apply colLabels_page_tables|].
    intros p ->. cbn [columns]. split; [done|].
    apply (bool_decide_unpack _). by vm_compute.
  - rewrite length_page_tables. unfold num_pages, max_rows_per_page.
    by rewrite Hlen.
  - by rewrite <- Hlen.
  - by apply page_tables_rows.
  - exists r. eexists. split; [done|].
    rewrite !head_lookup, lookup_page_tables
      by (unfold num_pages; lia).
    split; [done|]. by cbn.
Qed.

End Document.

Lemma export_pages_are_full_but_the_last_witness :
  let d := sample (Some "B-17") (Some "MAGNESITE") (Some "Vega")
                  (Some "Yard A") (Some 10%float) (Some 5%float) in
  let df := mk_df display_columns (replicate 27 (field_values d)) in
  raises_without_rows (ax := draws_rows)
  ∧ draws_what_is_given (ax := draws_rows)
  ∧ ∃ pages, df_to_pdf_bytes (ax := draws_rows) df = Some pages
             ∧ length ∘ cellText <$> pages = [25; 2]%nat.
Proof.
  intros d df.
  assert (df_to_pdf_bytes (ax := draws_rows) df = Some (page_tables df))
    as Hpages by by vm_compute.
  split_and!; [apply draws_rows_raises|apply draws_rows_draws|].
  exists (page_tables df). split; [done|].
  exact (proj1 (export_pages_are_full_but_the_last
                  draws_rows_raises draws_rows_draws df _ Hpages)).
Defined.

Lemma exported_document_holds_the_shown_records_witness :
  let d := sample (Some "B-17") (Some "MAGNESITE") (Some "Vega")
                  (Some "Yard A") (Some 10%float) (Some 5%float) in
  let s := perform (Create d) empty_store in
  raises_without_rows (ax := draws_rows)
  ∧ draws_what_is_given (ax := draws_rows)
  ∧ ∃ v pages, search_results (ax := draws_rows) "mag" s = shown v (Some pages)
       ∧ concat (cellText <$> pages) = [field_values d].
Proof.
  intros d s.
  split_and!; [apply draws_rows_raises|apply draws_rows_draws|].
  destruct (search_results (ax := draws_rows) "mag" s) as [|v [pages|]|] eqn:Hv;
    try by vm_compute in Hv.
  exists v, pages. split; [done|].
  destruct (exported_document_holds_the_shown_records
              draws_rows_raises draws_rows_draws (search_query "mag") s v pages Hv)
    as (Hcat & _).
  rewrite Hcat. by vm_compute.
Defined.

Lemma length_select {A B} (mask : list bool) (l : list A) (k : list B) :
  length l = length k → length (select mask l) = length (select mask k).
Proof.
  revert l k. induction mask as [|b mask IH]; intros [|x l] [|y k] Hl;
    try done.
  injection Hl as Hl. cbn [select]. destruct b; cbn; by rewrite (IH l k).
Qed.

Lemma page_tables_rectangular df :
  rectangular df →
  Forall (λ p, Forall (λ r, length r = length (colLabels p)) (cellText p))
         (page_tables df).
Proof.
  unfold rectangular. intros Hdf. apply Forall_lookup. intros k p Hp.
  assert (k < num_pages df)%nat as Hk.
  { rewrite <- length_page_tables. by eapply lookup_lt_Some. }
  rewrite lookup_page_tables in Hp by done. injection Hp as <-.
  cbn [cellText colLabels]. by apply Forall_take, Forall_drop.
Qed.

(** X14: a frame in which every row has one cell per column stays so on its
    way to the page: the result of a query is such a frame, and renaming,
    dropping a column and slicing keep it so; hence every table the table
    renderer is asked for has rows as wide as its header. *)
Theorem frames_stay_rectangular :
  (∀ q s, rectangular (fetch_records q s))
  ∧ (∀ df, rectangular df → rectangular (rename_columns df))
  ∧ (∀ label df df',
       rectangular df → drop_columns label df = Some df' → rectangular df')
  ∧ (∀ a b df, rectangular df → rectangular (iloc a b df))
  ∧ (∀ df, rectangular df →
       Forall (λ p, Forall (λ r, length r = length (colLabels p)) (cellText p))
              (page_tables df)).
Proof.
  unfold rectangular. split_and!.
  - intros q s. unfold fetch_records. cbn [columns values].
    apply Forall_fmap, Forall_forall. by intros r _.
  - intros df Hdf. unfold rename_columns. cbn [columns values].
    by rewrite length_fmap.
  - intros label df df' Hdf. unfold drop_columns.
    destruct (decide _); [|done]. intros [= <-]. cbn [columns values].
    apply Forall_fmap. eapply Forall_impl; [done|]. intros r Hr. cbn.
    by apply length_select.
  - intros a b df Hdf. unfold iloc. cbn [columns values].
    by apply Forall_take, Forall_drop.
  - apply page_tables_rectangular.
Qed.

(** ** More on the column mapper *)

Lemma rename_label_idempotent c :
  rename_label rename_map (rename_label rename_map c)
  = rename_label rename_map c.
Proof.
  unfold rename_label at 2 3.
  destruct (rename_map !! c) as [l|] eqn:Hc; cbn [default from_option].
  - apply rename_map_lookup in Hc. unfold rename_pairs in Hc.
    repeat (apply elem_of_cons in Hc as [Hc|Hc];
            [injection Hc as -> ->; by vm_compute|]).
    by apply elem_of_nil in Hc.
  - unfold rename_label. by rewrite Hc.
Qed.

(** X15: renaming twice is renaming once: no label the map produces is
    itself a field name of the map, so a frame that is already labelled
    passes through unchanged in its labels a second time. *)
Theorem rename_columns_idempotent (df : DataFrame) :
  rename_columns (rename_columns df) = rename_columns df.
Proof.
  unfold rename_columns. cbn [columns values]. f_equal.
  rewrite <- list_fmap_compose. apply list_fmap_ext. intros _ c _.
  apply rename_label_idempotent.
Qed.

(** ** The date as a string *)

Lemma digit_inj a b : digit a = digit b → (a mod 10 = b mod 10)%nat.
Proof.
  unfold digit. intros H. apply (f_equal nat_of_ascii) in H.
  pose proof (Nat.mod_upper_bound a 10). pose proof (Nat.mod_upper_bound b 10).
  rewrite !nat_ascii_embedding in H by lia. lia.
Qed.

Lemma two_digits_inj (m m' : nat) :
  Z.of_nat m ≤ 99 → Z.of_nat m' ≤ 99 →
  ((m / 10) mod 10 = (m' / 10) mod 10)%nat → (m mod 10 = m' mod 10)%nat →
  m = m'.
Proof.
  intros Hm Hm' H1 H2.
  pose proof (Nat.div_mod_eq m 10). pose proof (Nat.div_mod_eq m' 10).
  pose proof (Nat.div_mod_eq (m / 10) 10).
  pose proof (Nat.div_mod_eq (m' / 10) 10).
  lia.
Qed.

Lemma four_digits_inj (y y' : nat) :
  Z.of_nat y ≤ 9999 → Z.of_nat y' ≤ 9999 →
  ((y / 1000) mod 10 = (y' / 1000) mod 10)%nat →
  ((y / 100) mod 10 = (y' / 100) mod 10)%nat →
  ((y / 10) mod 10 = (y' / 10) mod 10)%nat →
  (y mod 10 = y' mod 10)%nat →
  y = y'.
Proof.
  intros Hy Hy' H1 H2 H3 H4.
  replace (y / 1000)%nat with (y / 10 / 10 / 10)%nat in H1
    by (rewrite !Nat.Div0.div_div; reflexivity).
  replace (y' / 1000)%nat with (y' / 10 / 10 / 10)%nat in H1
    by (rewrite !Nat.Div0.div_div; reflexivity).
  replace (y / 100)%nat with (y / 10 / 10)%nat in H2
    by (rewrite !Nat.Div0.div_div; reflexivity).
  replace (y' / 100)%nat with (y' / 10 / 10)%nat in H2
    by (rewrite !Nat.Div0.div_div; reflexivity).
  pose proof (Nat.div_mod_eq y 10). pose proof (Nat.div_mod_eq y' 10).
  pose proof (Nat.div_mod_eq (y / 10) 10).
  pose proof (Nat.div_mod_eq (y' / 10) 10).
  pose proof (Nat.div_mod_eq (y / 10 / 10) 10).
  pose proof (Nat.div_mod_eq (y' / 10 / 10) 10).
  pose proof (Nat.div_mod_eq (y / 10 / 10 / 10) 10).
  pose proof (Nat.div_mod_eq (y' / 10 / 10 / 10) 10).
  lia.
Qed.

(** X16: the string a date is stored as has ten characters, and two dates of
    the calendar are never stored as the same string. *)
Theorem str_is_injective (d d' : date) :
  valid_date d → valid_date d' →
  String.length (str d) = 10%nat ∧ (str d = str d' → d = d').
Proof.
  intros (Hy & Hm & Hd) (Hy' & Hm' & Hd'). split; [done|].
  destruct d as [y m dd], d' as [y' m' dd']. unfold str.
  cbn [year month day] in *. intros [= H1 H2 H3 H4 H5 H6 H7 H8].
  apply digit_inj in H1, H2, H3, H4, H5, H6, H7, H8.
  f_equal.
  - apply four_digits_inj; [lia | lia | exact H1 | exact H2 | exact H3 | exact H4].
  - apply two_digits_inj; [lia | lia | exact H5 | exact H6].
  - apply two_digits_inj; [lia | lia | exact H7 | exact H8].
Qed.

Lemma str_is_injective_witness :
  valid_date (mk_date 2025 1 31) ∧ valid_date (mk_date 2024 2 29)
  ∧ String.length (str (mk_date 2025 1 31)) = 10%nat
  ∧ (str (mk_date 2025 1 31) = str (mk_date 2024 2 29) →
     mk_date 2025 1 31 = mk_date 2024 2 29).
Proof.
  assert (valid_date (mk_date 2025 1 31)) as Hv by (unfold valid_date; cbn; lia).
  assert (valid_date (mk_date 2024 2 29)) as Hw by (unfold valid_date; cbn; lia).
  split; [done|]. split; [done|].
  exact (str_is_injective (mk_date 2025 1 31) (mk_date 2024 2 29) Hv Hw).
Defined.

(** ** More on the reports *)

(** What a column stores is never NaN. *)
Lemma skipna_bind_real x : skipna (bind_real x) = bind_real x.
Proof.
  destruct x as [f|]; [|done]. unfold bind_real, bind_double, skipna.
  cbn [mbind option_bind].
  destruct (is_nan f) eqn:Hn; [done|].
  destruct (is_zero f); cbn [mbind option_bind]; [done|]. by rewrite Hn.
Qed.

(** X17: creating a record changes one bar of a report at most, the bar of
    the record's own group, which becomes the compensated sum of the
    measures the group had with the measure of the new record, as its column
    stores it, taken last; a record whose group field is NULL changes
    none. *)
Theorem report_after_create (rt : report_type) (d : fields) (s s' : store) :
  add_record d s = Some s' →
  ∃ m m',
    chart_data rt (rename_columns (fetch_records select_all s)) = Some m
    ∧ chart_data rt (rename_columns (fetch_records select_all s')) = Some m'
    ∧ (∀ g, group_key rt (mk_row 0 d) ≠ Some g → m' !! g = m !! g)
    ∧ (∀ g, group_key rt (mk_row 0 d) = Some g →
         m' !! g
         = Some (float_sum
                   (omap (λ r, skipna (group_measure rt r))
                         (filter (λ r, group_key rt r = Some g) (rows s))
                    ++ option_list (bind_real (group_measure rt (mk_row 0 d)))))).
Proof.
  unfold add_record. destruct (decide _); [|done]. intros [= <-].
  eexists _, _. split_and!; [apply chart_data_fetch..| |];
    intros g Hg; rewrite !foldl_add_row_total; cbn [rows];
    unfold group_total; rewrite filter_app;
    set (r := mk_row (last_rowid s + 1) (stored d));
    assert (group_key rt r = group_key rt (mk_row 0 d)) as Hkey
      by (by destruct rt);
    assert (group_measure rt r = bind_real (group_measure rt (mk_row 0 d)))
      as Hmeasure by (by destruct rt).
  - rewrite filter_cons_False by congruence. by rewrite filter_nil, app_nil_r.
  - rewrite filter_cons_True by congruence. rewrite filter_nil.
    assert (omap (λ r, skipna (group_measure rt r)) [r]
            = option_list (bind_real (group_measure rt (mk_row 0 d)))) as Hnew.
    { cbn [omap list_omap]. rewrite Hmeasure, skipna_bind_real.
      by destruct (bind_real _). }
    rewrite <- Hnew, <- omap_app.
    by destruct (filter _ (rows s)).
Qed.

Lemma report_after_create_witness :
  let A := sample (Some "A-1") (Some "X") (Some "Vega") (Some "Yard 1")
                  (Some 20%float) (Some 10%float) in
  let B := sample (Some "B-1") (Some "X") (Some "Vega") (Some "Yard 2")
                  (Some 20%float) (Some 5%float) in
  let s := perform (Create A) empty_store in
  ∃ s' m', add_record B s = Some s'
    ∧ chart_data Material_vs_Loaded_Qty
        (rename_columns (fetch_records select_all s')) = Some m'
    ∧ m' !! "X" = Some 15%float.
Proof.
  intros A B s.
  destruct (report_after_create Material_vs_Loaded_Qty B s _ eq_refl)
    as (m & m' & Hm & Hm' & _ & Hg).
  eexists _, m'. split_and!; [reflexivity|done|].
  by rewrite Hg.
Defined.

(** ** Saving and reading back on the records page *)

(** X18: after Save Changes on a row of the records page, the row numbers
    address the same identifiers as before, and the update form of the same
    row is filled with the values that were saved as the columns store
    them, the date as its ISO string: a measure that is NaN comes back as
    NULL and -0.0 as 0.0, and when no measure is NaN or -0.0 the form is
    filled with exactly the values that were saved. *)
Theorem saved_changes_are_shown_again
    (s : store) (k : nat) (r : row) (f : Form.t) :
  NoDup (id <$> rows s) →
  rows s !! k = Some r →
  ∃ s', save_changes (Z.of_nat k + 1) f s = Some s'
        ∧ id <$> rows s' = id <$> rows s
        ∧ form_record (Z.of_nat k + 1) s'
          = Some (INTEGER (id r) :: field_values (stored (form_data f)))
        ∧ (Forall exact (measures (form_data f)) →
           form_record (Z.of_nat k + 1) s'
           = Some (INTEGER (id r) :: field_values (form_data f))).
Proof.
  intros Hnd Hk.
  assert (rows s ≠ []) as Hne by (intros Hnil; by rewrite Hnil in Hk).
  assert (getitem (id <$> rows s) (Z.of_nat k + 1 - 1) = Some (id r)) as Hsel.
  { replace (Z.of_nat k + 1 - 1) with (Z.of_nat k) by lia.
    apply getitem_lookup. by rewrite list_lookup_fmap, Hk. }
  exists (update_record (id r) (form_data f) s).
  pose proof (update_record_ids (id r) (form_data f) s) as Hids.
  assert (rows (update_record (id r) (form_data f) s) !! k
          = Some (mk_row (id r) (stored (form_data f)))) as Hk'.
  { unfold update_record. cbn [rows]. rewrite (update_rows_at _ k r) by done.
    apply list_lookup_insert_eq. by eapply lookup_lt_Some. }
  assert (rows (update_record (id r) (form_data f) s) ≠ []) as Hne'
    by (intros Hnil; by rewrite Hnil in Hk').
  assert (form_record (Z.of_nat k + 1) (update_record (id r) (form_data f) s)
          = Some (INTEGER (id r) :: field_values (stored (form_data f))))
    as Hform.
  { unfold form_record. rewrite (records_display_rows _ Hne').
    cbn [mbind option_bind]. unfold selected_id. cbn [ids]. rewrite Hids, Hsel.
    cbn [mbind option_bind]. rewrite record_by_id_fetch, selected_all.
    by rewrite (head_filter_id_at _ k (mk_row (id r) (stored (form_data f))))
      by (by rewrite ?Hids). }
  split_and!.
  - unfold save_changes. rewrite (records_display_rows s Hne).
    cbn [mbind option_bind]. unfold selected_id. cbn [ids]. by rewrite Hsel.
  - done.
  - done.
  - intros Hex. by rewrite Hform, stored_exact.
Qed.

Lemma saved_changes_are_shown_again_witness :
  let d := sample (Some "B-17") (Some "MAGNESITE") (Some "Vega")
                  (Some "Yard A") (Some 10%float) (Some 5%float) in
  let e := sample (Some "B-18") (Some "Talc") (Some "Orion")
                  (Some "Yard B") (Some 7%float) (Some 3%float) in
  let s := perform (Create e) (perform (Create d) empty_store) in
  let f := Form.mk "7" (mk_date 2025 2 1) "Yard C" "B-19" "H1" "DUNITE" "L-8"
             "SGS-12" 10 5 5 "green" "dark" 1.5 46 0.5 "NIL" "TRK 2" "" "Lyra"
             "R-4" in
  ∃ s', save_changes 2 f s = Some s'
        ∧ form_record 2 s' = Some (INTEGER 2 :: field_values (form_data f)).
Proof.
  intros d e s f.
  assert (NoDup (id <$> rows s)) as Hnd
    by (apply (bool_decide_unpack _); by vm_compute).
  assert (rows s !! 1%nat = Some (mk_row 2 e)) as Hk by done.
  destruct (saved_changes_are_shown_again s 1 (mk_row 2 e) f Hnd Hk)
    as (s' & Hsave & _ & _ & Hform).
  exists s'. split; [done|]. apply Hform.
  repeat (apply Forall_cons; split; [apply exact_Some; by vm_compute|]).
  by apply Forall_nil.
Defined.
